(** * ResumeBuilder: the generation and refinement handlers of the server

    A shallow embedding of [server/src/index.ts]: the current server
    (with [generateWithOpenAI], [/api/generate] and [/api/refine]) and, in
    [Module Legacy], the earlier single-call [/api/generate] handler that the
    repository still carries.

    JavaScript strings are sequences of UTF-16 code units, JSON numbers are
    IEEE doubles, objects born from [JSON.parse] are trees; the handlers run
    in a state-and-exception monad over a store of such objects, the log of
    the SDK calls made and the log of the files read. *)

From Stdlib Require Import String Ascii ZArith QArith.
From Stdlib.Floats Require Import SpecFloat.
From stdpp Require Import gmap list fin_maps.

Open Scope string_scope.
Open Scope Z_scope.
Open Scope list_scope.

(** ** Strings *)

(** A JavaScript string: its UTF-16 code units. *)
Abbreviation jsstring := (list N).

Fixpoint js (s : string) : jsstring :=
  match s with
  | EmptyString => []
  | String c r => N_of_ascii c :: js r
  end.

(** The double quote and the line feed, for literals that contain them. *)
Definition dquote : jsstring := [34%N].
Definition LF : jsstring := [10%N].

(** [Array.prototype.join(sep)] on an array of strings. *)
Fixpoint join (sep : jsstring) (parts : list jsstring) : jsstring :=
  match parts with
  | [] => []
  | [p] => p
  | p :: rest => p ++ sep ++ join sep rest
  end.

(** ECMAScript WhiteSpace and LineTerminator code points, the characters
    [String.prototype.trim] strips (all of them are single code units). *)
Definition is_white_space (c : N) : bool :=
  ((c =? 9) || (c =? 10) || (c =? 11) || (c =? 12) || (c =? 13) || (c =? 32)
   || (c =? 160) || (c =? 5760) || ((8192 <=? c) && (c <=? 8202))
   || (c =? 8232) || (c =? 8233) || (c =? 8239) || (c =? 8287)
   || (c =? 12288) || (c =? 65279))%N.

Fixpoint trim_start (s : jsstring) : jsstring :=
  match s with
  | [] => []
  | c :: r => if is_white_space c then trim_start r else s
  end.

Definition trim_end (s : jsstring) : jsstring := rev (trim_start (rev s)).

Definition trim (s : jsstring) : jsstring := trim_end (trim_start s).

(** ** Values *)

(** A value as [JSON.parse] builds it.  An array carries, besides its
    elements, the named properties later assigned to it ([a.experience = x]
    on an array is legal JavaScript); [JSON.parse] leaves that list empty. *)
#[warnings="-register-all"]
Inductive value : Type :=
  | VNull
  | VBool (b : bool)
  | VNum (f : spec_float)
  | VStr (s : jsstring)
  | VArr (elems : list value) (named : list (jsstring * value))
  | VObj (props : list (jsstring * value)).

(** The result of evaluating an expression: [None] is [undefined]. *)
Abbreviation jsval := (option value).

Inductive js_type := TUndefined | TObject | TBoolean | TNumber | TString.

Definition typeof (v : jsval) : js_type :=
  match v with
  | None => TUndefined
  | Some VNull => TObject
  | Some (VBool _) => TBoolean
  | Some (VNum _) => TNumber
  | Some (VStr _) => TString
  | Some (VArr _ _) => TObject
  | Some (VObj _) => TObject
  end.

(** ToBoolean: [undefined], [null], [false], [+0], [-0], [NaN] and the empty
    string are falsy, every object and array is truthy. *)
Definition truthy (v : jsval) : bool :=
  match v with
  | None => false
  | Some VNull => false
  | Some (VBool b) => b
  | Some (VNum (S754_zero _)) => false
  | Some (VNum S754_nan) => false
  | Some (VNum _) => true
  | Some (VStr s) => negb (bool_decide (s = []))
  | Some (VArr _ _) => true
  | Some (VObj _) => true
  end.

(** [a || b] *)
Definition js_or (a b : jsval) : jsval := if truthy a then a else b.

(** Association lists of own properties, keys unique, in insertion order. *)
Fixpoint assoc_get (k : jsstring) (ps : list (jsstring * value)) : jsval :=
  match ps with
  | [] => None
  | (k', v) :: r => if bool_decide (k' = k) then Some v else assoc_get k r
  end.

Fixpoint assoc_set (k : jsstring) (v : value) (ps : list (jsstring * value))
  : list (jsstring * value) :=
  match ps with
  | [] => [(k, v)]
  | (k', v') :: r =>
      if bool_decide (k' = k) then (k, v) :: r else (k', v') :: assoc_set k v r
  end.

(** The JSON value [JSON.stringify] writes for a value: the named properties
    of arrays are not serialised, an infinite number or NaN is written as
    [null], and a zero without its sign. *)
Fixpoint wire (v : value) : value :=
  match v with
  | VNum (S754_zero _) => VNum (S754_zero false)
  | VNum (S754_infinity _) => VNull
  | VNum S754_nan => VNull
  | VArr elems _ => VArr (map wire elems) []
  | VObj props => VObj (map (fun kv => (fst kv, wire (snd kv))) props)
  | _ => v
  end.

(** ** Errors, SDK calls and the runtime *)

(** What a [catch] clause can receive: a rejection of an SDK promise (an API
    error, or the client's timeout elapsing), the [SyntaxError] of
    [JSON.parse], the [TypeError] of a failed property access, or a plain
    [Error] thrown by the code itself. *)
Inductive error_name :=
  | APIError | APIConnectionTimeoutError | SyntaxError | TypeError | PlainError.

Record error := { err_name : error_name; message : jsstring }.

(** [text: { format: { type, json_schema: { name, schema, strict } } }] *)
Record text_format := {
  fmt_type : jsstring;
  fmt_name : jsstring;
  fmt_schema : value;
  fmt_strict : bool }.

(** The argument of [openai.responses.create]. *)
Record responses_request := {
  rq_model : jsstring;
  rq_system : jsstring;
  rq_user : jsstring;
  rq_temperature : Q;
  rq_max_output_tokens : Z;
  rq_format : text_format }.

(** The argument of [openai.chat.completions.create]. *)
Record chat_request := {
  cq_model : jsstring;
  cq_temperature : Q;
  cq_response_format : jsstring;
  cq_system : jsstring;
  cq_user : jsstring }.

Inductive api_call :=
  | ResponsesCreate (r : responses_request)
  | ChatCompletionsCreate (r : chat_request).

(** What the handlers read of a fulfilled response: [output_text] and
    [output?.[0]?.content?.[0]?.text]; [None] is null or undefined. *)
Record responses_envelope := {
  output_text : option jsstring;
  output_0_content_0_text : option jsstring }.

(** [choices[0]?.message?.content] of a fulfilled completion. *)
Record completion_envelope := {
  choices_0_message_content : option jsstring }.

Inductive outcome (A : Type) :=
  | Returned (a : A)
  | Thrown (e : error).
Arguments Returned {A} a.
Arguments Thrown {A} e.

(** The two candidate files of [readAboutMeFromDisk], in the order tried. *)
Inductive aboutme_path := ParentAboutMe | CwdAboutMe.

Inductive access := ReadProperty | WriteProperty.

(** Everything the server code takes from outside itself: the built-ins of
    the JavaScript engine, the process environment, the file system and the
    provider behind the SDK.  The provider answers a call knowing the calls
    made before it, so it may answer the same request differently each time. *)
Record runtime := {
  (** [JSON.parse(text)]: the value, or the message of the SyntaxError *)
  JSON_parse : jsstring -> value + jsstring;
  (** [JSON.stringify(v, null, 2)] *)
  JSON_stringify : value -> jsstring;
  (** the message of the TypeError raised by [o.k] or [o.k = x] *)
  TypeError_message : access -> jsval -> jsstring -> jsstring;
  (** [process.env.OPENAI_MODEL], [process.env.OPENAI_API_KEY] *)
  env_OPENAI_MODEL : option jsstring;
  env_OPENAI_API_KEY : option jsstring;
  (** [fs.readFile(p, 'utf8')]: [None] when the promise rejects *)
  fs_readFile : aboutme_path -> option jsstring;
  (** the awaited results of the two SDK methods *)
  responses_create :
    list api_call -> responses_request -> outcome responses_envelope;
  chat_completions_create :
    list api_call -> chat_request -> outcome completion_envelope }.

(** ** State and monad *)

Abbreviation loc := positive.

(** [store]: the values the handlers hold references to, each cell one tree:
    [req.body.resume] and every result of [JSON.parse]; assigning to a
    property of such an object updates its cell in place.  [calls]: the SDK
    calls made so far, oldest first.  [reads]: the files read so far. *)
Record state := {
  store : gmap loc value;
  calls : list api_call;
  reads : list aboutme_path }.

Definition M (A : Type) : Type := state -> outcome A * state.

Definition ret {A} (a : A) : M A := fun s => (Returned a, s).

Definition throw {A} (e : error) : M A := fun s => (Thrown e, s).

Definition bind {A B} (m : M A) (k : A -> M B) : M B :=
  fun s =>
    match m s with
    | (Returned a, s') => k a s'
    | (Thrown e, s') => (Thrown e, s')
    end.

(** [try { m } catch (err) { h err }] *)
Definition try_catch {A} (m : M A) (h : error -> M A) : M A :=
  fun s =>
    match m s with
    | (Returned a, s') => (Returned a, s')
    | (Thrown e, s') => h e s'
    end.

Declare Scope js_scope.
Delimit Scope js_scope with js.
Notation "x <- m ;; k" := (bind m (fun x => k))
  (at level 100, m at next level, right associativity) : js_scope.
Notation "m ;;; k" := (bind m (fun _ => k))
  (at level 100, right associativity) : js_scope.
Open Scope js_scope.

(** ** Object literals of the source *)

Definition str (s : string) : value := VStr (js s).
Definition arr (elems : list value) : value := VArr elems [].
Definition obj (props : list (string * value)) : value :=
  VObj (map (fun kv => (js (fst kv), snd kv)) props).

Definition ty (t : string) : value := obj [("type", str t)].
Definition array_of_strings : value :=
  obj [("type", str "array"); ("items", ty "string")].
Definition closed_object (required : list string)
  (properties : list (string * value)) : value :=
  obj ([("type", str "object"); ("additionalProperties", VBool false)]
       ++ match required with
          | [] => []
          | _ => [("required", arr (map str required))]
          end
       ++ [("properties", obj properties)]).

(** [buildJsonSchema()] *)
Definition buildJsonSchema : value :=
  closed_object
    ["name"; "title"; "contact"; "summary"; "skills"; "experience"]
    [ ("name", ty "string");
      ("title", ty "string");
      ("contact", closed_object []
         [ ("email", ty "string"); ("phone", ty "string");
           ("location", ty "string"); ("website", ty "string");
           ("linkedin", ty "string"); ("github", ty "string") ]);
      ("summary", ty "string");
      ("skills", closed_object ["core"]
         [ ("core", array_of_strings); ("tools", array_of_strings);
           ("other", array_of_strings) ]);
      ("experience", obj
         [ ("type", str "array");
           ("items", closed_object ["company"; "role"; "bullets"]
              [ ("company", ty "string"); ("role", ty "string");
                ("location", ty "string"); ("startDate", ty "string");
                ("endDate", ty "string"); ("bullets", array_of_strings) ]) ]);
      ("projects", obj
         [ ("type", str "array");
           ("items", closed_object ["name"; "description"]
              [ ("name", ty "string"); ("description", ty "string");
                ("bullets", array_of_strings); ("link", ty "string");
                ("technologies", array_of_strings) ]) ]);
      ("education", obj
         [ ("type", str "array");
           ("items", closed_object ["school"]
              [ ("school", ty "string"); ("degree", ty "string");
                ("graduationDate", ty "string");
                ("details", array_of_strings) ]) ]);
      ("certifications", array_of_strings) ].

(** The [schema] literal of [buildUserPrompt]. *)
Definition prompt_schema : value :=
  obj [ ("name", str "string");
        ("title", str "string");
        ("contact", obj
           [ ("email", str "string?"); ("phone", str "string?");
             ("location", str "string?"); ("website", str "string?");
             ("linkedin", str "string?"); ("github", str "string?") ]);
        ("summary", str "string");
        ("skills", obj
           [ ("core", arr [str "string"]); ("tools", arr [str "string?"]);
             ("other", arr [str "string?"]) ]);
        ("experience", arr
           [ obj [ ("company", str "string"); ("role", str "string");
                   ("location", str "string?"); ("startDate", str "string?");
                   ("endDate", str "string?");
                   ("bullets", arr [str "string"]) ] ]);
        ("projects", arr
           [ obj [ ("name", str "string"); ("description", str "string");
                   ("bullets", arr [str "string?"]); ("link", str "string?");
                   ("technologies", arr [str "string?"]) ] ]);
        ("education", arr
           [ obj [ ("school", str "string"); ("degree", str "string?");
                   ("graduationDate", str "string?");
                   ("details", arr [str "string?"]) ] ]);
        ("certifications", arr [str "string?"]) ].

(** [{ error: msg }], [{ resume: doc }] *)
Definition error_body (msg : jsstring) : value := VObj [(js "error", VStr msg)].
Definition resume_body (doc : value) : value := VObj [(js "resume", doc)].

(** What [res.status(s).json(b)] sends; [res.json(b)] sends status 200. *)
Record response := { status : Z; body : value }.

(** ** Regular expression [/^gpt-5/i] *)

(** Case-insensitive match of the input character [c] against the pattern
    character [pat], a lower-case letter or no letter at all: without the [u]
    flag only the two ASCII cases of a letter canonicalise to it. *)
Definition ci_eq (pat c : N) : bool :=
  ((c =? pat) || ((97 <=? pat) && (pat <=? 122) && (c =? pat - 32)))%N.

Fixpoint ci_prefix (pat s : jsstring) : bool :=
  match pat, s with
  | [], _ => true
  | _ :: _, [] => false
  | p :: pat', c :: s' => ci_eq p c && ci_prefix pat' s'
  end.

(** [/^gpt-5/i.test(model)] *)
Definition test_gpt5 (model : jsstring) : bool := ci_prefix (js "gpt-5") model.

#[global] Instance js_type_eq_dec : EqDecision js_type.
Proof. solve_decision. Defined.

(** The string [v] when [!v || typeof v !== 'string'] is false. *)
Definition nonempty_string (v : jsval) : option jsstring :=
  if negb (truthy v) || negb (bool_decide (typeof v = TString)) then None
  else match v with Some (VStr s) => Some s | _ => None end.

(** The string [v] when
    [!v || typeof v !== 'string' || v.trim().length === 0] is false. *)
Definition nonblank_string (v : jsval) : option jsstring :=
  match nonempty_string v with
  | Some s => if (length (trim s) =? 0)%nat then None else Some s
  | None => None
  end.

(** [a || d] for a default [d] that is not undefined. *)
Definition or_default (a : jsval) (d : value) : value :=
  match a with
  | Some v => if truthy a then v else d
  | None => d
  end.

(** [s || d] on a string that may be null or undefined. *)
Definition string_or (s : option jsstring) (d : jsstring) : jsstring :=
  match s with
  | Some (c :: r) => c :: r
  | _ => d
  end.

(** [a ?? b] on strings that may be null or undefined. *)
Definition nullish (a : option jsstring) (b : jsstring) : jsstring :=
  match a with
  | Some s => s
  | None => b
  end.

(** ** Prompts *)

(** [buildSystemPrompt()] *)
Definition buildSystemPrompt : jsstring :=
  join LF
    [ js "You are an expert resume writer optimizing resumes for ATS systems.";
      js "Generate a concise, accomplishment-driven resume based on the candidate's background and the target role.";
      js "CRITICAL: The resume MUST fit on EXACTLY ONE PAGE when rendered. Aim to fill 95-100% of the page.";
      js "Return ONLY strict JSON matching the provided schema. No prose outside JSON.";
      js "Guidelines:";
      js "- Use short, impact-focused bullet points starting with strong verbs.";
      js "- Quantify results where possible (%, $, time saved).";
      js "- Prioritize keywords relevant to the target job description.";
      js "- Avoid flowery language, keep sentences scannable.";
      js "- Never invent facts beyond the candidate input; fill unknowns with best-effort from about me.";
      js "- Target 3-5 experience items with 3-4 bullets each for optimal one-page fit.";
      js "- IMPORTANT: For experiences at " ++ dquote ++ js "Oracle" ++ dquote
        ++ js " and " ++ dquote ++ js "UC Berkeley Consulting Club" ++ dquote
        ++ js ", include ONLY ONE short, concise bullet point each.";
      js "- IMPORTANT: In the projects section, include ONLY the " ++ dquote
        ++ js "Original Joe's" ++ dquote ++ js " project.";
      js "- Keep summary to 2-3 sentences maximum.";
      js "- Be concise but comprehensive - every word should add value." ].

(** The [systemPrompt] of [/api/refine]. *)
Definition refineSystemPrompt : jsstring :=
  join LF
    [ js "You are an expert resume writer refining a resume to fit exactly one page.";
      js "Your task is to adjust the existing resume based on feedback about its length.";
      js "Return ONLY strict JSON matching the provided schema. No prose outside JSON.";
      js "Guidelines:";
      js "- When told to CONDENSE: shorten bullet points, reduce wordiness, combine similar points, remove less impactful items.";
      js "- When told to EXPAND: elaborate on achievements, add quantifiable details, expand descriptions.";
      js "- Keep the same structure and sections, just adjust content length.";
      js "- Preserve all key accomplishments and quantifiable results.";
      js "- Maintain professional tone and ATS optimization." ].

(** [{ type: 'json_schema', json_schema: { name: 'resume_schema',
       schema: buildJsonSchema(), strict: true } }] *)
Definition resume_format : text_format :=
  {| fmt_type := js "json_schema";
     fmt_name := js "resume_schema";
     fmt_schema := buildJsonSchema;
     fmt_strict := true |}.

Section Server.

Variable E : runtime.

(** [let OPENAI_MODEL = process.env.OPENAI_MODEL || 'gpt-5'] *)
Definition OPENAI_MODEL : jsstring := string_or (env_OPENAI_MODEL E) (js "gpt-5").

(** [buildUserPrompt(aboutMe, targetText)] *)
Definition buildUserPrompt (aboutMe targetText : jsstring) : jsstring :=
  join LF
    [ js "ABOUT_ME:";
      aboutMe;
      [];
      js "TARGET_COMPANY_AND_JOB:";
      targetText;
      [];
      js "Output strict JSON for this TypeScript-like schema:";
      JSON_stringify E prompt_schema;
      [];
      js "Rules:";
      js "- Return JSON only. No backticks. No commentary.";
      js "- Keep bullet items crisp, 1 line each.";
      js "- Align content with target role keywords." ].

(** The [userPrompt] of [/api/refine]. *)
Definition refineUserPrompt (resume : value) (feedback : jsstring) : jsstring :=
  join LF
    [ js "Current resume (JSON):";
      JSON_stringify E resume;
      [];
      js "FEEDBACK:";
      feedback;
      [];
      js "Return the refined resume as strict JSON only. No backticks. No commentary." ].

(** The schema-constrained request both handlers build. *)
Definition schema_request (system user : jsstring) : responses_request :=
  {| rq_model := OPENAI_MODEL;
     rq_system := system;
     rq_user := user;
     rq_temperature := 1;
     rq_max_output_tokens := 2000;
     rq_format := resume_format |}.

(** The JSON-mode request both handlers build. *)
Definition json_mode_request (system user : jsstring) : chat_request :=
  {| cq_model := OPENAI_MODEL;
     cq_temperature := 1;
     cq_response_format := js "json_object";
     cq_system := system;
     cq_user := user |}.

(** ** Operations on the state *)

Definition deref (l : loc) : M jsval := fun s => (Returned (store s !! l), s).

(** A new object: a cell no reference held so far points to. *)
Definition alloc (v : value) : M loc :=
  fun s =>
    let l := fresh (dom (store s)) in
    (Returned l,
     {| store := <[l := v]> (store s); calls := calls s; reads := reads s |}).

Definition write (l : loc) (v : value) : M unit :=
  fun s =>
    (Returned tt,
     {| store := <[l := v]> (store s); calls := calls s; reads := reads s |}).

Definition type_error {A} (a : access) (o : jsval) (k : jsstring) : M A :=
  throw {| err_name := TypeError; message := TypeError_message E a o k |}.

(** [o.k] for a key that is no array index, not [length] and not inherited
    (the handlers use [experience] and [skills]): reading from null or
    undefined throws, a primitive has no such property. *)
Definition get_prop (l : loc) (k : jsstring) : M jsval :=
  o <- deref l ;;
  match o with
  | Some (VObj props) => ret (assoc_get k props)
  | Some (VArr _ named) => ret (assoc_get k named)
  | Some VNull | None => type_error ReadProperty o k
  | Some _ => ret None
  end.

(** [o.k = v], same keys, in strict mode (the file is an ES module): the
    object is updated in place; assigning to null, undefined or a primitive
    throws. *)
Definition set_prop (l : loc) (k : jsstring) (v : value) : M unit :=
  o <- deref l ;;
  match o with
  | Some (VObj props) => write l (VObj (assoc_set k v props))
  | Some (VArr elems named) => write l (VArr elems (assoc_set k v named))
  | _ => type_error WriteProperty o k
  end.

(** [JSON.parse(text)]: a new object, or a SyntaxError. *)
Definition parse (text : jsstring) : M loc :=
  match JSON_parse E text with
  | inl v => alloc v
  | inr msg => throw {| err_name := SyntaxError; message := msg |}
  end.

(** [await openai.responses.create(r)] *)
Definition openai_responses_create (r : responses_request)
  : M responses_envelope :=
  fun s =>
    (responses_create E (calls s) r,
     {| store := store s; calls := calls s ++ [ResponsesCreate r];
        reads := reads s |}).

(** [await openai.chat.completions.create(r)] *)
Definition openai_chat_completions_create (r : chat_request)
  : M completion_envelope :=
  fun s =>
    (chat_completions_create E (calls s) r,
     {| store := store s; calls := calls s ++ [ChatCompletionsCreate r];
        reads := reads s |}).

(** [try { await fs.readFile(p, 'utf8') } catch {}] *)
Definition readFile (p : aboutme_path) : M (option jsstring) :=
  fun s =>
    (Returned (fs_readFile E p),
     {| store := store s; calls := calls s; reads := reads s ++ [p] |}).

(** ** The server code *)

(** The loop of [readAboutMeFromDisk]: the first candidate that can be read
    and is not blank. *)
Fixpoint first_readable (candidates : list aboutme_path)
  : M (option jsstring) :=
  match candidates with
  | [] => ret None
  | p :: rest =>
      r <- readFile p ;;
      match r with
      | Some content =>
          if truthy (Some (VStr (trim content))) then ret (Some content)
          else first_readable rest
      | None => first_readable rest
      end
  end.

(** [readAboutMeFromDisk()]; [None] is its [null]. *)
Definition readAboutMeFromDisk : M (option jsstring) :=
  first_readable [ParentAboutMe; CwdAboutMe].

(** The tail of [generateWithOpenAI], and the same statements of
    [/api/refine]: the JSON-mode call and the parse of its content. *)
Definition json_mode_call (system user : jsstring) : M loc :=
  completion <- openai_chat_completions_create (json_mode_request system user) ;;
  let content := string_or (choices_0_message_content completion) (js "{}") in
  parse content.

(** The body of the [try] block of both handlers: the schema-constrained call
    and the parse of its text. *)
Definition schema_call (system user : jsstring) : M loc :=
  response <- openai_responses_create (schema_request system user) ;;
  let text :=
    nullish (output_text response)
      (nullish (output_0_content_0_text response) (js "{}")) in
  parse text.

(** [generateWithOpenAI(aboutMe, targetText)].  The [try] block returns from
    the function ([Some]); its [catch] only logs, and control falls through
    to the JSON-mode call. *)
Definition generateWithOpenAI (aboutMe targetText : jsstring) : M loc :=
  let system := buildSystemPrompt in
  let user := buildUserPrompt aboutMe targetText in
  let useResponses := test_gpt5 OPENAI_MODEL in
  returned <-
    (if useResponses then
       try_catch (parsed <- schema_call system user ;; ret (Some parsed))
                 (fun err => ret None)
     else ret None) ;;
  match returned with
  | Some parsed => ret parsed
  | None => json_mode_call system user
  end.

(** The "best-effort sanity defaults" of both handlers:
    [parsed.experience = parsed.experience || [];]
    [parsed.skills = parsed.skills || { core: [] };] *)
Definition normalize (parsed : loc) : M unit :=
  experience <- get_prop parsed (js "experience") ;;
  set_prop parsed (js "experience") (or_default experience (arr [])) ;;;
  skills <- get_prop parsed (js "skills") ;;
  set_prop parsed (js "skills") (or_default skills (obj [("core", arr [])])).

Definition send (st : Z) (b : value) : M response :=
  ret {| status := st; body := b |}.

(** [res.json({ resume: parsed })] *)
Definition send_resume (parsed : loc) : M response :=
  doc <- deref parsed ;;
  send 200 (match doc with
            | Some v => resume_body (wire v)
            | None => VObj []
            end).

(** The outer [try]/[catch] of a handler: any error becomes a 500 whose
    message is [error.message || 'Internal server error']. *)
Definition handler (m : M response) : state -> response * state :=
  fun s =>
    match m s with
    | (Returned r, s') => (r, s')
    | (Thrown e, s') =>
        ({| status := 500;
            body := error_body (string_or (Some (message e))
                                          (js "Internal server error")) |},
         s')
    end.

(** [!process.env.OPENAI_API_KEY] is false *)
Definition api_key_configured : bool :=
  truthy (option_map VStr (env_OPENAI_API_KEY E)).

Definition key_missing_message : jsstring :=
  js "OPENAI_API_KEY is not configured in server/.env".

(** The body of a request to [/api/generate]. *)
Record generate_body := { targetText : jsval; aboutMe : jsval }.

(** [app.post('/api/generate', ...)] from the API-key check on, [about] and
    [targetText] being the validated strings. *)
Definition generate_validated (about target : jsstring) : M response :=
  if negb api_key_configured then send 500 (error_body key_missing_message)
  else
    parsed <- generateWithOpenAI about target ;;
    normalize parsed ;;;
    send_resume parsed.

(** [app.post('/api/generate', ...)] *)
Definition api_generate (req : generate_body) : state -> response * state :=
  handler
    match nonblank_string (targetText req) with
    | None => send 400 (error_body (js "Missing targetText"))
    | Some target =>
        match nonblank_string (aboutMe req) with
        | Some about => generate_validated about target
        | None =>
            fromDisk <- readAboutMeFromDisk ;;
            let about := string_or fromDisk [] in
            if negb (truthy (Some (VStr about)))
            then send 400 (error_body (js "Missing aboutMe content"))
            else generate_validated about target
        end
    end.

(** The body of a request to [/api/refine]; the resume, when present, is an
    object of the store. *)
Record refine_body := { resume : option loc; feedback : jsval }.

(** [app.post('/api/refine', ...)] from [const useResponses] on: here the
    JSON-mode call sits inside the [catch]. *)
Definition refineWithOpenAI (systemPrompt userPrompt : jsstring) : M loc :=
  let useResponses := test_gpt5 OPENAI_MODEL in
  if useResponses then
    try_catch (schema_call systemPrompt userPrompt)
              (fun err => json_mode_call systemPrompt userPrompt)
  else json_mode_call systemPrompt userPrompt.

(** [app.post('/api/refine', ...)] *)
Definition api_refine (req : refine_body) : state -> response * state :=
  handler
    (r <- match resume req with
          | Some l => deref l
          | None => ret None
          end ;;
     match r with
     | Some prior =>
         if negb (truthy r) || negb (bool_decide (typeof r = TObject))
         then send 400 (error_body (js "Missing resume object"))
         else
           match nonempty_string (feedback req) with
           | None => send 400 (error_body (js "Missing feedback"))
           | Some fb =>
               if negb api_key_configured
               then send 500 (error_body key_missing_message)
               else
                 parsed <- refineWithOpenAI refineSystemPrompt
                             (refineUserPrompt prior fb) ;;
                 normalize parsed ;;;
                 send_resume parsed
           end
     | None => send 400 (error_body (js "Missing resume object"))
     end).

End Server.

(** ** The earlier handler *)

Module Legacy.

(** [buildSystemPrompt()] of the earlier server; the dash of its last line is
    U+2013. *)
Definition buildSystemPrompt : jsstring :=
  join LF
    [ js "You are an expert resume writer optimizing resumes for ATS systems.";
      js "Generate a concise, accomplishment-driven resume based on the candidate's background and the target role.";
      js "Return ONLY strict JSON matching the provided schema. No prose outside JSON.";
      js "Guidelines:";
      js "- Use short, impact-focused bullet points starting with strong verbs.";
      js "- Quantify results where possible (%, $, time saved).";
      js "- Prioritize keywords relevant to the target job description.";
      js "- Avoid flowery language, keep sentences scannable.";
      js "- Never invent facts beyond the candidate input; fill unknowns with best-effort from about me.";
      js "- Keep sections within reasonable length for a 1" ++ [8211%N]
        ++ js "2 page resume." ].

Section Server.

Variable E : runtime.

(** The loop of [readAboutMeFile]. *)
Fixpoint first_readable (candidatePaths : list aboutme_path)
  : M (option jsstring) :=
  match candidatePaths with
  | [] => ret None
  | p :: rest =>
      r <- readFile E p ;;
      match r with
      | Some content =>
          if truthy (Some (VStr content)) && (0 <? length (trim content))%nat
          then ret (Some content)
          else first_readable rest
      | None => first_readable rest
      end
  end.

(** [readAboutMeFile()] *)
Definition readAboutMeFile : M jsstring :=
  found <- first_readable [ParentAboutMe; CwdAboutMe] ;;
  match found with
  | Some content => ret content
  | None =>
      throw {| err_name := PlainError;
               message := js "Missing aboutme.txt. Place it at project root." |}
  end.

(** [{ model: 'gpt-4o-mini', temperature: 0.4,
       response_format: { type: 'json_object' }, messages: [...] }] *)
Definition chat_request_of (system user : jsstring) : chat_request :=
  {| cq_model := js "gpt-4o-mini";
     cq_temperature := 4 # 10;
     cq_response_format := js "json_object";
     cq_system := system;
     cq_user := user |}.

(** [{ error: 'Model returned invalid JSON', raw: content }] *)
Definition invalid_json_body (content : jsstring) : value :=
  VObj [(js "error", VStr (js "Model returned invalid JSON"));
        (js "raw", VStr content)].

(** [app.post('/api/generate', ...)] of the earlier server: one JSON-mode
    call; a parse failure is answered with 502 and the raw content; any other
    error with a bare 500. *)
Definition api_generate (target : jsval) : state -> response * state :=
  fun s =>
    let m : M response :=
      match nonblank_string target with
      | None => send 400 (error_body (js "Missing targetText"))
      | Some targetText =>
          read <-
            try_catch (content <- readAboutMeFile ;; ret (inr content))
              (fun err =>
                 ret (inl (error_body (string_or (Some (message err))
                                                 (js "aboutme.txt not found"))))) ;;
          match read with
          | inl b => send 400 b
          | inr aboutMe =>
              if negb (api_key_configured E)
              then send 500 (error_body key_missing_message)
              else
                let system := buildSystemPrompt in
                let user := buildUserPrompt E aboutMe targetText in
                completion <-
                  openai_chat_completions_create E
                    (chat_request_of system user) ;;
                let content :=
                  string_or (choices_0_message_content completion) (js "{}") in
                tried <-
                  try_catch (parsed <- parse E content ;; ret (Some parsed))
                            (fun e => ret None) ;;
                match tried with
                | None => send 502 (invalid_json_body content)
                | Some parsed =>
                    normalize E parsed ;;;
                    send_resume parsed
                end
          end
      end in
    match m s with
    | (Returned r, s') => (r, s')
    | (Thrown e, s') =>
        ({| status := 500; body := error_body (js "Internal server error") |},
         s')
    end.

End Server.

End Legacy.

(** * Vocabulary of the properties *)

(** A request field that is absent, not a string, or empty after trimming. *)
Definition absent_or_blank (v : jsval) : Prop :=
  match v with
  | Some (VStr s) => trim s = []
  | _ => True
  end.

(** A request field that is an object: not absent, not null, not a
    primitive. *)
Definition is_object (v : jsval) : bool :=
  match v with
  | Some (VObj _) | Some (VArr _ _) => true
  | _ => false
  end.

(** The prior resume a refine request names, as the handler reads it. *)
Definition prior_resume (req : refine_body) (s : state) : jsval :=
  match resume req with
  | Some l => store s !! l
  | None => None
  end.


(** The own property [k] of a value, for the keys of [get_prop]. *)
Definition own (v : value) (k : jsstring) : jsval :=
  match v with
  | VObj props => assoc_get k props
  | VArr _ named => assoc_get k named
  | _ => None
  end.

(** An object or array after [o.k = x]. *)
Definition with_prop (v : value) (k : jsstring) (x : value) : value :=
  match v with
  | VObj props => VObj (assoc_set k x props)
  | VArr elems named => VArr elems (assoc_set k x named)
  | _ => v
  end.

(** What the two statements of [normalize] make of an object. *)
Definition normalized (v : value) : value :=
  let v1 :=
    with_prop v (js "experience")
      (or_default (own v (js "experience")) (arr [])) in
  with_prop v1 (js "skills")
    (or_default (own v1 (js "skills")) (obj [("core", arr [])])).

(** The state with another store. *)
Definition set_store (s : state) (h : gmap loc value) : state :=
  {| store := h; calls := calls s; reads := reads s |}.

(** The state after one more SDK call. *)
Definition called (s : state) (c : api_call) : state :=
  {| store := store s; calls := calls s ++ [c]; reads := reads s |}.

(** The runtime with another file system. *)
Definition with_fs (E : runtime) (f : aboutme_path -> option jsstring)
  : runtime :=
  {| JSON_parse := JSON_parse E;
     JSON_stringify := JSON_stringify E;
     TypeError_message := TypeError_message E;
     env_OPENAI_MODEL := env_OPENAI_MODEL E;
     env_OPENAI_API_KEY := env_OPENAI_API_KEY E;
     fs_readFile := f;
     responses_create := responses_create E;
     chat_completions_create := chat_completions_create E |}.

(** The text the schema-constrained call is parsed from. *)
Definition responses_text (r : responses_envelope) : jsstring :=
  nullish (output_text r) (nullish (output_0_content_0_text r) (js "{}")).

(** The text the JSON-mode call is parsed from. *)
Definition completion_text (c : completion_envelope) : jsstring :=
  string_or (choices_0_message_content c) (js "{}").

(** The schema-constrained call made after [history] is fulfilled and its
    payload parses as JSON. *)
Definition tier1_succeeds (E : runtime) (history : list api_call)
    (r : responses_request) : bool :=
  match responses_create E history r with
  | Thrown _ => false
  | Returned envelope =>
      match JSON_parse E (responses_text envelope) with
      | inl _ => true
      | inr _ => false
      end
  end.

(** It is rejected, or its payload fails to parse as JSON. *)
Definition tier1_fails (E : runtime) (history : list api_call)
    (r : responses_request) : Prop :=
  tier1_succeeds E history r = false.

(** The SDK calls made between [s] and [s']. *)
Definition new_calls (s s' : state) : list api_call :=
  drop (length (calls s)) (calls s').

(** A schema-constrained call was made between [s] and [s']. *)
Definition tier1_attempted (s s' : state) : Prop :=
  exists r, In (ResponsesCreate r) (new_calls s s').

(** The model name matches [^gpt-5], letters in either case: it starts with
    g or G, p or P, t or T, a hyphen and the digit 5. *)
Definition matches_gpt5 (model : jsstring) : Prop :=
  exists g p t rest,
    model = g :: p :: t :: 45%N :: 53%N :: rest
    /\ (g = 103%N \/ g = 71%N)
    /\ (p = 112%N \/ p = 80%N)
    /\ (t = 116%N \/ t = 84%N).

(** A generate request that passes validation with [about] and [target]. *)
Definition valid_generate (req : generate_body) (about target : jsstring)
  : Prop :=
  targetText req = Some (VStr target) /\ trim target <> []
  /\ aboutMe req = Some (VStr about) /\ trim about <> [].

(** A refine request that passes validation with [prior] and [fb]. *)
Definition valid_refine (req : refine_body) (s : state) (prior : value)
    (fb : jsstring) : Prop :=
  prior_resume req s = Some prior /\ is_object (Some prior) = true
  /\ feedback req = Some (VStr fb) /\ fb <> [].

(** The response every error caught by a handler is turned into. *)
Definition failure (e : error) : response :=
  {| status := 500;
     body := error_body (string_or (Some (message e))
                                   (js "Internal server error")) |}.

(** ** A stubbed runtime for the examples *)

Module Stub.

(** [{"skills":{}}] *)
Definition skills_only : jsstring :=
  js "{" ++ dquote ++ js "skills" ++ dquote ++ js ":{}}".

(** [JSON.parse] on the three texts the examples use; the message is the one
    V8 (Node 18) gives for the text [not json]. *)
Definition parse_table (text : jsstring) : value + jsstring :=
  if bool_decide (text = js "{}") then inl (obj [])
  else if bool_decide (text = skills_only) then inl (obj [("skills", obj [])])
  else inr (js "Unexpected token o in JSON at position 1").

(** A rejection of the schema-constrained call by the API. *)
Definition unsupported : error :=
  {| err_name := APIError;
     message := js "400 Unsupported parameter: 'temperature'" |}.

(** The rejection the SDK produces when its [timeout] elapses. *)
Definition timed_out : error :=
  {| err_name := APIConnectionTimeoutError;
     message := js "Request timed out." |}.

(** A runtime whose provider answers every schema-constrained call with
    [tier1] and every JSON-mode call with [tier2], whose [aboutme.txt] is
    [Candidate with a decade of backend work] in the working directory, with
    the API key set.  The prompts do not matter to the stubbed provider, so
    [JSON.stringify] is a placeholder. *)
Definition runtime_of (model : option jsstring)
    (tier1 : outcome responses_envelope) (tier2 : outcome completion_envelope)
  : runtime :=
  {| JSON_parse := parse_table;
     JSON_stringify := fun _ => js "{}";
     TypeError_message := fun _ _ _ => js "TypeError";
     env_OPENAI_MODEL := model;
     env_OPENAI_API_KEY := Some (js "sk-test");
     fs_readFile := fun p =>
       match p with
       | ParentAboutMe => None
       | CwdAboutMe => Some (js "Candidate with a decade of backend work")
       end;
     responses_create := fun _ _ => tier1;
     chat_completions_create := fun _ _ => tier2 |}.

Definition content (text : jsstring) : outcome completion_envelope :=
  Returned {| choices_0_message_content := Some text |}.

Definition output (text : jsstring) : outcome responses_envelope :=
  Returned {| output_text := Some text; output_0_content_0_text := None |}.

Definition initial : state := {| store := ∅; calls := []; reads := [] |}.

(** A well-formed generate request. *)
Definition about : jsstring := js "Ten years of backend work".
Definition target : jsstring := js "Acme Corp: Staff Engineer".

Definition request : generate_body :=
  {| targetText := Some (VStr target); aboutMe := Some (VStr about) |}.

(** The same request without [aboutMe]. *)
Definition request_without_about : generate_body :=
  {| targetText := Some (VStr target); aboutMe := None |}.

(** Both tiers answer with the text [not json]. *)
Definition unparseable_runtime : runtime :=
  runtime_of None (output (js "not json")) (content (js "not json")).


(** Every call times out. *)
Definition unresponsive : runtime :=
  runtime_of None (Thrown timed_out) (Thrown timed_out).

(** Another model; its one call is rejected. *)
Definition other_model : runtime :=
  runtime_of (Some (js "gpt-4o-mini")) (Thrown unsupported)
    (Thrown unsupported).

(** A prior resume and a refine request naming it at address 1. *)
Definition prior : value :=
  obj [("name", str "Ada Lovelace"); ("title", str "Engineer")].

Definition refine_request : refine_body :=
  {| resume := Some 1%positive; feedback := Some (str "condense") |}.

(** The provider rejects the schema-constrained call and answers the
    JSON-mode call with [{"skills":{}}]. *)
Definition fallback_runtime : runtime :=
  runtime_of None (Thrown unsupported) (content skills_only).

(** A state whose only object, at address 1, is [v]. *)
Definition holding (v : value) : state :=
  set_store initial {[1%positive := v]}.

(** [{"experience":1e999}], and a runtime whose JSON-mode provider answers
    it; [JSON.parse] reads the number as Infinity. *)
Definition overflow_text : jsstring :=
  js "{" ++ dquote ++ js "experience" ++ dquote ++ js ":1e999}".

Definition overflow_runtime : runtime :=
  {| JSON_parse := fun text =>
       if bool_decide (text = overflow_text)
       then inl (obj [("experience", VNum (S754_infinity false))])
       else parse_table text;
     JSON_stringify := fun _ => js "{}";
     TypeError_message := fun _ _ _ => js "TypeError";
     env_OPENAI_MODEL := None;
     env_OPENAI_API_KEY := Some (js "sk-test");
     fs_readFile := fun _ => None;
     responses_create := fun _ _ => Thrown unsupported;
     chat_completions_create := fun _ _ => content overflow_text |}.

(** A runtime for examples that reach no provider. *)
Definition offline : runtime :=
  runtime_of None (Thrown unsupported) (Thrown unsupported).

End Stub.

(** What a generation leaves behind: the files read are the same, and either
    it threw and the store is as it was, or it returns a new object holding a
    value parsed from some text. *)
Definition fresh_parse (E : runtime) (s : state) (o : outcome loc)
    (s' : state) : Prop :=
  reads s' = reads s
  /\ ((exists e, o = Thrown e /\ store s' = store s)
      \/ (exists text v,
             JSON_parse E text = inl v
             /\ o = Returned (fresh (dom (store s)))
             /\ store s' = <[fresh (dom (store s)) := v]> (store s))).

(** The statements both handlers end with. *)
Definition respond (E : runtime) (gen : M loc) : M response :=
  parsed <- gen ;;
  normalize E parsed ;;;
  send_resume parsed.

(** The body of a successful response: the parse of some text, normalized
    and serialised. *)
Definition normalized_resume (E : runtime) (b : value) (v : value) : Prop :=
  (exists text, JSON_parse E text = inl v)
  /\ is_object (Some v) = true
  /\ b = resume_body (wire (normalized v)).

(** [v] is the document the provider sent to the request run from [s] to
    [s']: the last SDK call of the log was made by this request, after the
    calls [earlier] it had made before; the provider fulfilled it, and [v] is
    the parse of the text the handler reads from what it was fulfilled
    with. *)
Definition provider_document (E : runtime) (s s' : state) (v : value)
  : Prop :=
  exists earlier last,
    calls s' = (calls s ++ earlier) ++ [last]
    /\ match last with
       | ResponsesCreate r =>
           exists envelope,
             responses_create E (calls s ++ earlier) r = Returned envelope
             /\ JSON_parse E (responses_text envelope) = inl v
       | ChatCompletionsCreate r =>
           exists completion,
             chat_completions_create E (calls s ++ earlier) r
             = Returned completion
             /\ JSON_parse E (completion_text completion) = inl v
       end.

(** A number [JSON.parse] reads as an infinity, such as [1e999]. *)
Definition overflowing (x : jsval) : Prop :=
  exists sign, x = Some (VNum (S754_infinity sign)).

(** The defaults, [v] being the provider's document and [doc] the document
    handed to [res.json]: [experience] and [skills] are present and truthy in
    [doc]; [skills] is [{ core: [] }] when the provider sent no truthy
    [skills], and the provider's own [skills] otherwise; a property is
    serialised exactly when [doc] has it; and [experience] or [skills] is
    serialised as [null] exactly when the provider sent an overflowing number
    for it. *)
Definition defaults_applied (v doc : value) : Prop :=
  truthy (own doc (js "experience")) = true
  /\ truthy (own doc (js "skills")) = true
  /\ (truthy (own v (js "skills")) = false ->
      own doc (js "skills") = Some (obj [("core", arr [])]))
  /\ (truthy (own v (js "skills")) = true ->
      own doc (js "skills") = own v (js "skills"))
  /\ (forall k, own (wire doc) k = option_map wire (own doc k))
  /\ (forall k, k = js "experience" \/ k = js "skills" ->
                (own (wire doc) k = Some VNull <-> overflowing (own v k))).

(** The response [r] of a request run from [s] carries [{ resume: doc }]
    serialised, where [doc] is the document the provider sent, an object or
    an array, after the two defaults; when the provider's document is a JSON
    object, the defaults are in place. *)
Definition returns_normalized (E : runtime) (s : state)
    (r : response * state) : Prop :=
  exists v,
    provider_document E s (snd r) v
    /\ is_object (Some v) = true
    /\ body (fst r) = resume_body (wire (normalized v))
    /\ forall props, v = VObj props -> defaults_applied v (normalized v).

(** * Vocabulary of the further properties *)

(** The content of a candidate file when it can be read and is not blank. *)
Definition usable (E : runtime) (p : aboutme_path) : option jsstring :=
  match fs_readFile E p with
  | Some content => if bool_decide (trim content = []) then None else Some content
  | None => None
  end.

(** The state after reading the files [ps], in that order. *)
Definition read_files (s : state) (ps : list aboutme_path) : state :=
  {| store := store s; calls := calls s; reads := reads s ++ ps |}.

(** The error [readAboutMeFile] of the earlier server throws. *)
Definition missing_aboutme : error :=
  {| err_name := PlainError;
     message := js "Missing aboutme.txt. Place it at project root." |}.

(** A response with this status and [{ error: msg }]. *)
Definition rejection (st : Z) (msg : string) : response :=
  {| status := st; body := error_body (js msg) |}.

(** The SDK calls a request may add to the log: none, the JSON-mode call
    alone, the schema-constrained call alone, or the schema-constrained call
    followed by the JSON-mode call, both built from the same prompts. *)
Definition call_pattern (E : runtime) (new : list api_call) : Prop :=
  new = []
  \/ exists system user,
       new = [ChatCompletionsCreate (json_mode_request E system user)]
       \/ new = [ResponsesCreate (schema_request E system user)]
       \/ new = [ResponsesCreate (schema_request E system user);
                 ChatCompletionsCreate (json_mode_request E system user)].

(** The runtime with another provider behind the JSON-mode call. *)
Definition with_chat (E : runtime)
    (f : list api_call -> chat_request -> outcome completion_envelope)
  : runtime :=
  {| JSON_parse := JSON_parse E;
     JSON_stringify := JSON_stringify E;
     TypeError_message := TypeError_message E;
     env_OPENAI_MODEL := env_OPENAI_MODEL E;
     env_OPENAI_API_KEY := env_OPENAI_API_KEY E;
     fs_readFile := fs_readFile E;
     responses_create := responses_create E;
     chat_completions_create := f |}.

(** The runtime without an API key. *)
Definition without_key (E : runtime) : runtime :=
  {| JSON_parse := JSON_parse E;
     JSON_stringify := JSON_stringify E;
     TypeError_message := TypeError_message E;
     env_OPENAI_MODEL := env_OPENAI_MODEL E;
     env_OPENAI_API_KEY := None;
     fs_readFile := fs_readFile E;
     responses_create := responses_create E;
     chat_completions_create := chat_completions_create E |}.

(** The JSON-mode call decides the generation run from [s] on these prompts,
    and the provider answers it with [o]: either the model does not select
    the schema-constrained call, and the JSON-mode call is the first call; or
    it does, that call is rejected or its payload fails to parse, and the
    JSON-mode call is made after it. *)
Definition json_mode_decides (E : runtime) (system user : jsstring)
    (s : state) (o : outcome completion_envelope) : Prop :=
  let r1 := schema_request E system user in
  let r2 := json_mode_request E system user in
  (test_gpt5 (OPENAI_MODEL E) = false
   /\ chat_completions_create E (calls s) r2 = o)
  \/ (test_gpt5 (OPENAI_MODEL E) = true
      /\ tier1_fails E (calls s) r1
      /\ chat_completions_create E (calls s ++ [ResponsesCreate r1]) r2 = o).

(** The document both defaults produce from an empty object. *)
Definition empty_resume : value :=
  obj [("experience", arr []); ("skills", obj [("core", arr [])])].

(** What holds of every response [r] of a handler run from [s]: its status is
    200, 400 or 500; the objects of the store are kept; a 400 has made no SDK
    call and created no object; a 200 has made at least one SDK call. *)
Definition within_contract (s : state) (r : response * state) : Prop :=
  (status (fst r) = 200 \/ status (fst r) = 400 \/ status (fst r) = 500)
  /\ store s ⊆ store (snd r)
  /\ (status (fst r) = 400 ->
      calls (snd r) = calls s /\ store (snd r) = store s)
  /\ (status (fst r) = 200 -> new_calls s (snd r) <> []).

(** The log after the request extends the log before it by at most two calls
    of the pattern. *)
Definition extends_log (E : runtime) (s : state) (r : response * state)
  : Prop :=
  exists new,
    calls (snd r) = calls s ++ new
    /\ call_pattern E new
    /\ (length new <= 2)%nat.

(** * [/api/export/docx] *)

(** What the converter hands back: a Node [Buffer], or a [Blob], whose
    [arrayBuffer()] is awaited for the bytes. *)
Inductive converted :=
  | AsBuffer (bytes : list N)
  | AsBlob (arrayBuffer : outcome (list N)).

(** What the handler takes from outside itself: the [html-docx-js] module,
    whose [asBuffer] may be missing, and [res.setHeader], which throws on a
    value holding a character that is not allowed in a header. *)
Record docx_runtime := {
  asBuffer : option (jsstring -> outcome converted);
  asBlob : jsstring -> outcome converted;
  setHeader_accepts : jsstring -> bool }.

(** The status, the headers the handler has set, in order, and the body: the
    JSON of [res.json] or the bytes of [res.send]. *)
Record export_response := {
  x_status : Z;
  x_headers : list (string * jsstring);
  x_body : value + list N }.

Definition content_type_docx : jsstring :=
  js "application/vnd.openxmlformats-officedocument.wordprocessingml.document".

(** The template literal [wrapped]. *)
Definition wrap_html (html : jsstring) : jsstring :=
  js "<!DOCTYPE html><html><head><meta charset=" ++ dquote ++ js "UTF-8"
  ++ dquote ++ js "></head><body>" ++ html ++ js "</body></html>".

(** [s.replace(q, '')], [q] being the global pattern of one double quote. *)
Definition strip_quotes (s : jsstring) : jsstring :=
  List.filter (fun c => negb (c =? 34)%N) s.

(** [(filename || 'resume').replace(q, '')]; [None] when the value is truthy
    and no string, so that [replace] is not a function. *)
Definition export_filename (filename : jsval) : option jsstring :=
  match js_or filename (Some (str "resume")) with
  | Some (VStr s) => Some (strip_quotes s)
  | _ => None
  end.

(** The template literal of the [Content-Disposition] header. *)
Definition content_disposition (name : jsstring) : jsstring :=
  js "attachment; filename=" ++ dquote ++ name ++ js ".docx" ++ dquote.

(** The [catch] of the handler, [headers] being those set before the
    throw. *)
Definition export_failed (headers : list (string * jsstring))
  : export_response :=
  {| x_status := 500;
     x_headers := headers;
     x_body := inl (error_body (js "Failed to export DOCX")) |}.

(** [app.post('/api/export/docx', ...)], the same in both servers. *)
Definition api_export_docx (X : docx_runtime) (html filename : jsval)
  : export_response :=
  match nonempty_string html with
  | None =>
      {| x_status := 400; x_headers := [];
         x_body := inl (error_body (js "Missing html")) |}
  | Some h =>
      let wrapped := wrap_html h in
      match match asBuffer X with
            | Some convert => convert wrapped
            | None => asBlob X wrapped
            end with
      | Thrown _ => export_failed []
      | Returned buffer =>
          let h1 := [("Content-Type", content_type_docx)] in
          match export_filename filename with
          | None => export_failed h1
          | Some name =>
              let disposition := content_disposition name in
              if setHeader_accepts X disposition then
                let h2 := h1 ++ [("Content-Disposition", disposition)] in
                match buffer with
                | AsBuffer bytes =>
                    {| x_status := 200; x_headers := h2; x_body := inr bytes |}
                | AsBlob (Returned ab) =>
                    {| x_status := 200; x_headers := h2; x_body := inr ab |}
                | AsBlob (Thrown _) => export_failed h2
                end
              else export_failed h1
          end
      end
  end.

(** The call of the converter: [asBuffer] when the module has it, [asBlob]
    otherwise. *)
Definition convert (X : docx_runtime) (wrapped : jsstring)
  : outcome converted :=
  match asBuffer X with
  | Some asBuffer => asBuffer wrapped
  | None => asBlob X wrapped
  end.

(** The bytes of what the converter handed back: the buffer itself, or what
    awaiting [arrayBuffer()] of the blob yields. *)
Definition bytes_of (buffer : converted) : outcome (list N) :=
  match buffer with
  | AsBuffer bytes => Returned bytes
  | AsBlob arrayBuffer => arrayBuffer
  end.

(** A request field that is absent, not a string, or the empty string. *)
Definition absent_or_empty (v : jsval) : Prop :=
  match v with
  | Some (VStr (_ :: _)) => False
  | _ => True
  end.

(** A converter for the examples: the bytes are the code units of the
    document; every header value is accepted. *)
Definition echo_converter : docx_runtime :=
  {| asBuffer := Some (fun wrapped => Returned (AsBuffer wrapped));
     asBlob := fun wrapped => Returned (AsBlob (Returned wrapped));
     setHeader_accepts := fun _ => true |}.

(** * The [aboutme.txt] endpoints of the earlier server *)

Section AboutMeFile.

(** The file system: [read] is [fs.readFile(p, 'utf8')], [None] when it
    rejects; [write] is [fs.writeFile(p, content, 'utf8')], with whether it
    resolved and the file system it leaves. *)
Variable disk : Type.
Variable read : disk -> aboutme_path -> option jsstring.
Variable write : disk -> aboutme_path -> jsstring -> bool * disk.

(** [writeAboutMeFile(content)]: the parent-directory file, and the
    working-directory file when that write is rejected; [false] when the
    second write is rejected too. *)
Definition writeAboutMeFile (content : jsstring) (d : disk) : bool * disk :=
  let (ok, d1) := write d ParentAboutMe content in
  if ok then (true, d1) else write d1 CwdAboutMe content.

(** [{ content }] *)
Definition content_body (content : jsstring) : value :=
  VObj [(js "content", VStr content)].

(** The loop of [app.get('/api/aboutme', ...)]: the first file that can be
    read, blank or not. *)
Fixpoint first_content (d : disk) (candidatePaths : list aboutme_path)
  : option jsstring :=
  match candidatePaths with
  | [] => None
  | p :: rest =>
      match read d p with
      | Some content => Some content
      | None => first_content d rest
      end
  end.

(** [app.get('/api/aboutme', ...)] *)
Definition api_aboutme_get (d : disk) : response :=
  {| status := 200;
     body := content_body
               (match first_content d [ParentAboutMe; CwdAboutMe] with
                | Some content => content
                | None => []
                end) |}.

(** [app.put('/api/aboutme', ...)] *)
Definition api_aboutme_put (content : jsval) (d : disk) : response * disk :=
  match content with
  | Some (VStr c) =>
      let (ok, d') := writeAboutMeFile c d in
      if ok then ({| status := 200; body := VObj [(js "ok", VBool true)] |}, d')
      else (rejection 500 "Failed to write aboutme.txt", d')
  | _ => (rejection 400 "Missing content", d)
  end.

End AboutMeFile.

(** A file system for the examples: the content of each file, [None] when it
    does not exist, and whether the parent directory can be written. *)
Record sample_disk := {
  parent_file : option jsstring;
  cwd_file : option jsstring;
  parent_writable : bool }.

Definition sample_read (d : sample_disk) (p : aboutme_path)
  : option jsstring :=
  match p with
  | ParentAboutMe => parent_file d
  | CwdAboutMe => cwd_file d
  end.

Definition sample_write (d : sample_disk) (p : aboutme_path) (c : jsstring)
  : bool * sample_disk :=
  match p with
  | ParentAboutMe =>
      if parent_writable d
      then (true, {| parent_file := Some c; cwd_file := cwd_file d;
                     parent_writable := true |})
      else (false, d)
  | CwdAboutMe =>
      (true, {| parent_file := parent_file d; cwd_file := Some c;
                parent_writable := parent_writable d |})
  end.

(** * The client *)

(** What a click on the Generate button comes to before the request is made:
    an [alert], or the body handed to [callGenerate], which posts
    [{ targetText, aboutMe }] to [/api/generate]. *)
Inductive click_outcome :=
  | Alerted (text : jsstring)
  | Requested (body : generate_body).

(** [alert(e.message || 'Generation failed')] *)
Definition alerted (msg : jsstring) : click_outcome :=
  Alerted (string_or (Some msg) (js "Generation failed")).

(** The click handler of the Generate button up to [callGenerate].  [typed]
    is [textarea.value]; [firebase] is what awaiting
    [getAboutMeFromFirebase()] yields, [None] when it rejects (the function
    is in [./firebase], which is not among the sources, so nothing is assumed
    of its result); [fetched] is the parsed body of [GET /api/aboutme],
    [None] when [fetch] or [r.json()] throws; [not_a_function] is the message
    of the TypeError of [aboutMe.trim()] on a value that is no string. *)
Definition generate_click (not_a_function : jsstring) (typed : jsstring)
    (firebase : option jsval) (fetched : option value) : click_outcome :=
  let targetText := trim typed in
  if negb (truthy (Some (VStr targetText)))
  then alerted (js "Please paste target company / job info.")
  else
    let fromFirebase : jsval :=
      match firebase with
      | Some v => v
      | None => Some (VStr [])
      end in
    let aboutMe : jsval :=
      if negb (truthy fromFirebase) then
        match fetched with
        | Some VNull => fromFirebase
        | Some j => js_or (own j (js "content")) (Some (VStr []))
        | None => fromFirebase
        end
      else fromFirebase in
    if negb (truthy aboutMe)
    then alerted (js "Please fill in your About Me information first.")
    else
      match aboutMe with
      | Some (VStr about) =>
          if (length (trim about) =? 0)%nat
          then alerted (js "Please fill in your About Me information first.")
          else Requested {| targetText := Some (VStr targetText);
                            aboutMe := Some (VStr about) |}
      | _ => alerted not_a_function
      end.

(** ** [callGenerate] and its timer *)

(** An exception as the [catch] of [callGenerate] sees it. *)
Record exception := { ex_name : jsstring; ex_message : jsstring }.

(** [new Error(msg)] *)
Definition new_Error (msg : jsstring) : exception :=
  {| ex_name := js "Error"; ex_message := msg |}.





(** The [catch] of [callGenerate]: an exception named AbortError is replaced,
    any other is thrown again. *)
Definition on_catch (e : exception) : exception :=
  if bool_decide (ex_name e = js "AbortError")
  then new_Error (js "Request timed out. Please try again.")
  else e.



(** The preview of a history item:
    [targetText.substring(0, 100) + (targetText.length > 100 ? '...' : '')] *)
Definition history_preview (targetText : jsstring) : jsstring :=
  take 100 targetText
  ++ (if (100 <? length targetText)%nat then js "..." else []).

(** A string that does not begin with white space. *)
Definition starts_clean (s : jsstring) : Prop :=
  match s with
  | [] => True
  | c :: _ => is_white_space c = false
  end.

(** * Time *)











(** The model and the two messages an SDK call carries. *)
Definition call_model (c : api_call) : jsstring :=
  match c with
  | ResponsesCreate r => rq_model r
  | ChatCompletionsCreate r => cq_model r
  end.

Definition call_system (c : api_call) : jsstring :=
  match c with
  | ResponsesCreate r => rq_system r
  | ChatCompletionsCreate r => cq_system r
  end.

Definition call_user (c : api_call) : jsstring :=
  match c with
  | ResponsesCreate r => rq_user r
  | ChatCompletionsCreate r => cq_user r
  end.

(** The first SDK call a handler makes from [s] names the configured model
    and carries these two messages. *)
Definition first_call_carries (E : runtime) (s : state)
    (r : response * state) (system user : jsstring) : Prop :=
  exists first rest,
    new_calls s (snd r) = first :: rest
    /\ call_model first = OPENAI_MODEL E
    /\ call_system first = system
    /\ call_user first = user.
(** * Properties *)

(** ** The definitions on concrete inputs *)

Example test_gpt5_examples :
  test_gpt5 (js "gpt-5") = true
  /\ test_gpt5 (js "GPT-5-mini") = true
  /\ test_gpt5 (js "gpt-4o-mini") = false
  /\ test_gpt5 (js "gpt5") = false
  /\ test_gpt5 (js " gpt-5") = false.
Proof. repeat split. Qed.

Example OPENAI_MODEL_default :
  OPENAI_MODEL Stub.fallback_runtime = js "gpt-5"
  /\ OPENAI_MODEL (Stub.runtime_of (Some []) (Thrown Stub.unsupported)
                     (Thrown Stub.unsupported)) = js "gpt-5"
  /\ OPENAI_MODEL Stub.other_model = js "gpt-4o-mini".
Proof. repeat split. Qed.

Example trim_examples :
  trim (js "  a b  ") = js "a b"
  /\ trim [9; 10; 13; 32; 160; 8195; 65279]%N = []
  /\ trim (js "x") = js "x".
Proof. repeat split. Qed.

Example nonblank_string_examples :
  nonblank_string (Some (str " job ")) = Some (js " job ")
  /\ nonblank_string (Some (str "   ")) = None
  /\ nonblank_string (Some (VNum (S754_finite false 5 0))) = None
  /\ nonblank_string (Some VNull) = None
  /\ nonblank_string None = None.
Proof. repeat split. Qed.

Example buildUserPrompt_example :
  buildUserPrompt Stub.fallback_runtime (js "A") (js "B")
  = js "ABOUT_ME:" ++ LF ++ js "A" ++ LF ++ LF
    ++ js "TARGET_COMPANY_AND_JOB:" ++ LF ++ js "B" ++ LF ++ LF
    ++ js "Output strict JSON for this TypeScript-like schema:" ++ LF
    ++ js "{}" ++ LF ++ LF
    ++ js "Rules:" ++ LF
    ++ js "- Return JSON only. No backticks. No commentary." ++ LF
    ++ js "- Keep bullet items crisp, 1 line each." ++ LF
    ++ js "- Align content with target role keywords.".
Proof. reflexivity. Qed.

(** The schema-constrained call answers [{}]: one call, both defaults. *)
Example first_tier_answers :
  let E := Stub.runtime_of None (Stub.output (js "{}"))
             (Thrown Stub.unsupported) in
  let r := api_generate E Stub.request Stub.initial in
  fst r = {| status := 200;
             body := resume_body (obj [("experience", arr []);
                                       ("skills", obj [("core", arr [])])]) |}
  /\ length (calls (snd r)) = 1%nat
  /\ reads (snd r) = [].
Proof. repeat split. Qed.

(** Without [aboutMe] the handler tries both files, in order. *)
Example about_me_read_from_disk :
  let r := api_generate Stub.fallback_runtime Stub.request_without_about
             Stub.initial in
  status (fst r) = 200 /\ reads (snd r) = [ParentAboutMe; CwdAboutMe].
Proof. repeat split. Qed.

(** A top-level array is answered as it came: the defaults are assigned to
    the array object and lost when it is serialised. *)
Example array_payload :
  let s := Stub.holding (arr [str "x"]) in
  let r := normalize Stub.offline 1%positive s in
  fst r = Returned tt
  /\ store (snd r) !! 1%positive
     = Some (VArr [str "x"]
                  [(js "experience", arr []);
                   (js "skills", obj [("core", arr [])])])
  /\ wire (normalized (arr [str "x"])) = arr [str "x"].
Proof. repeat split. Qed.

(** [null] and primitives make the first statement of [normalize] throw. *)
Example null_payload :
  fst (normalize Stub.offline 1%positive (Stub.holding VNull))
  = Thrown {| err_name := TypeError; message := js "TypeError" |}
  /\ fst (normalize Stub.offline 1%positive (Stub.holding (str "text")))
     = Thrown {| err_name := TypeError; message := js "TypeError" |}.
Proof. repeat split. Qed.

(** ** Input validation *)

Lemma nonempty_string_Some v s :
  nonempty_string v = Some s <-> v = Some (VStr s) /\ s <> [].
Proof.
  unfold nonempty_string.
  destruct v as [[| b | f | t | es ns | ps] |]; simpl;
    try (split; [discriminate | intros [? _]; discriminate]).
  - destruct b; split; try discriminate; intros [? _]; discriminate.
  - destruct f; split; try discriminate; intros [? _]; discriminate.
  - destruct t as [| c t]; simpl.
    + split; [discriminate | intros [H1 H2]; inversion H1; subst; congruence].
    + split; intros H; [inversion H; subst; split; [reflexivity | discriminate]
                       | destruct H as [H _]; inversion H; reflexivity].
Qed.

Lemma nonblank_string_Some v s :
  nonblank_string v = Some s <-> v = Some (VStr s) /\ trim s <> [].
Proof.
  unfold nonblank_string.
  destruct (nonempty_string v) as [t |] eqn:Hne.
  - apply nonempty_string_Some in Hne as [-> Ht].
    destruct (trim t) as [| c r] eqn:Htrim; simpl.
    + split; [discriminate | intros [H1 H2]; inversion H1; subst; congruence].
    + split; intros H.
      * inversion H; subst. split; [reflexivity | congruence].
      * destruct H as [H _]. inversion H. reflexivity.
  - split; [discriminate |].
    intros [-> Ht].
    assert (Hs : nonempty_string (Some (VStr s)) = Some s).
    { apply nonempty_string_Some. split; [reflexivity |].
      intros ->. apply Ht. reflexivity. }
    congruence.
Qed.

Lemma nonblank_string_None v :
  nonblank_string v = None <-> absent_or_blank v.
Proof.
  destruct (nonblank_string v) as [s |] eqn:H.
  - apply nonblank_string_Some in H as [-> Ht]. simpl.
    split; [discriminate | intros; contradiction].
  - split; [intros _ | reflexivity].
    destruct v as [[| b | f | t | es ns | ps] |]; simpl; try exact I.
    destruct (trim t) as [| c r] eqn:Htrim; [reflexivity |].
    assert (Hs : nonblank_string (Some (VStr t)) = Some t).
    { apply nonblank_string_Some. split; [reflexivity | congruence]. }
    congruence.
Qed.

(** The test [!v || typeof v !== 'object'] of [/api/refine] is false exactly
    on objects and arrays. *)
Lemma is_object_spec v :
  negb (truthy v) || negb (bool_decide (typeof v = TObject)) = negb (is_object v).
Proof.
  destruct v as [[| b | f | t | es ns | ps] |]; simpl; try reflexivity.
  - destruct b; reflexivity.
  - destruct f; reflexivity.
  - destruct t; reflexivity.
Qed.

(** C4. A generate request whose [targetText] is absent, not a string, or
    empty after trimming is answered with 400 "Missing targetText"; the state
    is left as it was, so no SDK call has been made and no file read. *)
Theorem generate_rejects_missing_target (E : runtime) (req : generate_body)
    (s : state) :
  absent_or_blank (targetText req) ->
  api_generate E req s
  = ({| status := 400; body := error_body (js "Missing targetText") |}, s).
Proof.
  intros H. apply nonblank_string_None in H.
  unfold api_generate, handler. rewrite H. reflexivity.
Qed.

Lemma generate_rejects_missing_target_witness :
  let req := {| targetText := Some (str "   "); aboutMe := Some (str "me") |} in
  absent_or_blank (targetText req)
  /\ api_generate Stub.fallback_runtime req Stub.initial
     = ({| status := 400; body := error_body (js "Missing targetText") |},
        Stub.initial).
Proof.
  cbv zeta. split; [reflexivity |].
  apply (generate_rejects_missing_target Stub.fallback_runtime
           {| targetText := Some (str "   "); aboutMe := Some (str "me") |}
           Stub.initial).
  reflexivity.
Defined.

(** C7. A refine request whose [resume] is not an object (absent, null or a
    primitive) is answered with 400 "Missing resume object", and one whose
    [feedback] is absent or the empty string is answered with a 400 as well;
    in both cases the state is left as it was: nothing was sent to the
    provider. *)
Theorem refine_rejects_malformed_input (E : runtime) (req : refine_body)
    (s : state) :
  (is_object (prior_resume req s) = false ->
   api_refine E req s
   = ({| status := 400; body := error_body (js "Missing resume object") |}, s))
  /\
  (feedback req = None \/ feedback req = Some (VStr []) ->
   status (fst (api_refine E req s)) = 400
   /\ snd (api_refine E req s) = s
   /\ (is_object (prior_resume req s) = true ->
       body (fst (api_refine E req s)) = error_body (js "Missing feedback"))).
Proof.
  unfold prior_resume, api_refine, handler, bind, deref, ret.
  split.
  - intros H.
    destruct (resume req) as [l |]; [| reflexivity].
    destruct (store s !! l) as [v |] eqn:Hv; [| reflexivity].
    rewrite is_object_spec, H. reflexivity.
  - intros Hf.
    assert (Hn : nonempty_string (feedback req) = None).
    { destruct Hf as [-> | ->]; reflexivity. }
    destruct (resume req) as [l |]; [| simpl; repeat split; discriminate].
    destruct (store s !! l) as [v |] eqn:Hv;
      [| simpl; repeat split; discriminate].
    rewrite is_object_spec.
    destruct (is_object (Some v)); simpl; rewrite ?Hn; simpl;
      repeat split; try reflexivity; discriminate.
Qed.

Lemma refine_rejects_malformed_input_witness :
  let req := {| resume := Some 1%positive; feedback := Some (VStr []) |} in
  let s := Stub.holding (str "not a resume") in
  is_object (prior_resume req s) = false
  /\ api_refine Stub.fallback_runtime req s
     = ({| status := 400; body := error_body (js "Missing resume object") |}, s)
  /\ snd (api_refine Stub.fallback_runtime req s) = s.
Proof.
  cbv zeta.
  pose proof (refine_rejects_malformed_input Stub.fallback_runtime
                {| resume := Some 1%positive; feedback := Some (VStr []) |}
                (Stub.holding (str "not a resume"))) as [H1 H2].
  split; [reflexivity |].
  split; [apply H1; reflexivity |].
  apply H2. right. reflexivity.
Defined.


(** ** Property lists and the store *)

Lemma assoc_get_set_eq k v ps : assoc_get k (assoc_set k v ps) = Some v.
Proof.
  induction ps as [| [k' v'] ps IH]; simpl.
  - rewrite bool_decide_eq_true_2; reflexivity.
  - destruct (bool_decide (k' = k)) eqn:Hk; simpl.
    + rewrite bool_decide_eq_true_2; reflexivity.
    + rewrite Hk. exact IH.
Qed.

Lemma assoc_get_set_ne k k' v ps :
  k <> k' -> assoc_get k' (assoc_set k v ps) = assoc_get k' ps.
Proof.
  intros Hne.
  induction ps as [| [k0 v0] ps IH]; simpl.
  - rewrite bool_decide_eq_false_2; [reflexivity | exact Hne].
  - destruct (bool_decide (k0 = k)) eqn:Hk; simpl.
    + apply bool_decide_eq_true_1 in Hk. subst k0.
      rewrite !bool_decide_eq_false_2 by exact Hne. reflexivity.
    + destruct (bool_decide (k0 = k')); [reflexivity | exact IH].
Qed.

Lemma own_with_prop_eq v k x :
  is_object (Some v) = true -> own (with_prop v k x) k = Some x.
Proof.
  destruct v; simpl; try discriminate; intros _; apply assoc_get_set_eq.
Qed.

Lemma own_with_prop_ne v k k' x :
  k <> k' -> own (with_prop v k x) k' = own v k'.
Proof.
  intros Hne. destruct v; simpl; try reflexivity;
    apply assoc_get_set_ne; exact Hne.
Qed.

Lemma is_object_with_prop v k x :
  is_object (Some (with_prop v k x)) = is_object (Some v).
Proof. destruct v; reflexivity. Qed.

Lemma get_prop_object E l k v s :
  store s !! l = Some v -> is_object (Some v) = true ->
  get_prop E l k s = (Returned (own v k), s).
Proof.
  intros Hl Ho. unfold get_prop, bind, deref. rewrite Hl.
  destruct v; simpl in Ho; try discriminate; reflexivity.
Qed.

Lemma set_prop_object E l k x v s :
  store s !! l = Some v -> is_object (Some v) = true ->
  set_prop E l k x s
  = (Returned tt, set_store s (<[l := with_prop v k x]> (store s))).
Proof.
  intros Hl Ho. unfold set_prop, bind, deref. rewrite Hl.
  destruct v; simpl in Ho; try discriminate; reflexivity.
Qed.

(** Reading a property changes nothing, and succeeds unless the cell holds
    null or nothing. *)
Lemma get_prop_state E l k s o s' : get_prop E l k s = (o, s') -> s' = s.
Proof.
  unfold get_prop, bind, deref, type_error, throw, ret.
  destruct (store s !! l) as [[| | | | |] |]; intros H; inversion H; reflexivity.
Qed.

(** Writing a property either throws, leaving the state as it was, or
    succeeds on an object. *)
Lemma set_prop_cases E l k x s o s' :
  set_prop E l k x s = (o, s') ->
  (exists e, o = Thrown e /\ s' = s)
  \/ (exists v, store s !! l = Some v /\ is_object (Some v) = true
                /\ o = Returned tt
                /\ s' = set_store s (<[l := with_prop v k x]> (store s))).
Proof.
  unfold set_prop, bind, deref, type_error, throw, write.
  destruct (store s !! l) as [[| | | | es ns | ps] |] eqn:Hl; intros H;
    inversion H; subst; try (left; eexists; split; reflexivity).
  - right. exists (VArr es ns). repeat split; reflexivity.
  - right. exists (VObj ps). repeat split; reflexivity.
Qed.

Lemma normalize_object E l v s :
  store s !! l = Some v -> is_object (Some v) = true ->
  normalize E l s
  = (Returned tt, set_store s (<[l := normalized v]> (store s))).
Proof.
  intros Hl Ho. unfold normalize, bind.
  rewrite (get_prop_object E l _ v s Hl Ho).
  rewrite (set_prop_object E l _ _ v s Hl Ho).
  set (v1 := with_prop v (js "experience") _).
  set (s1 := set_store s _).
  assert (Hl1 : store s1 !! l = Some v1) by apply lookup_insert_eq.
  assert (Ho1 : is_object (Some v1) = true)
    by (unfold v1; rewrite is_object_with_prop; exact Ho).
  rewrite (get_prop_object E l _ v1 s1 Hl1 Ho1).
  rewrite (set_prop_object E l _ _ v1 s1 Hl1 Ho1).
  unfold set_store, s1; simpl. rewrite insert_insert_eq. reflexivity.
Qed.

(** Whatever the cell holds, [normalize] touches that cell only; it returns
    exactly when the cell holds an object. *)
Lemma normalize_cases E l s o s' :
  normalize E l s = (o, s') ->
  (exists e, o = Thrown e /\ s' = s)
  \/ (exists v, store s !! l = Some v /\ is_object (Some v) = true
                /\ o = Returned tt
                /\ s' = set_store s (<[l := normalized v]> (store s))).
Proof.
  intros H.
  destruct (store s !! l) as [v |] eqn:Hl.
  - destruct (is_object (Some v)) eqn:Ho.
    + right. exists v. rewrite (normalize_object E l v s Hl Ho) in H.
      inversion H. split; [reflexivity |]. split; [exact Ho |].
      split; reflexivity.
    + left. revert H.
      unfold normalize, get_prop, set_prop, bind, deref, ret,
        type_error, throw.
      cbv beta. rewrite Hl.
      destruct v; simpl in Ho; try discriminate;
        cbv beta iota; rewrite ?Hl;
        intros H; inversion H; eexists; split; reflexivity.
  - left. revert H.
    unfold normalize, get_prop, bind, deref, type_error, throw.
    cbv beta. rewrite Hl. intros H; inversion H. eexists; split; reflexivity.
Qed.

(** ** The two tiers *)

Lemma parse_eq E text s :
  parse E text s
  = match JSON_parse E text with
    | inl v =>
        (Returned (fresh (dom (store s))),
         set_store s (<[fresh (dom (store s)) := v]> (store s)))
    | inr msg => (Thrown {| err_name := SyntaxError; message := msg |}, s)
    end.
Proof. unfold parse. destruct (JSON_parse E text); reflexivity. Qed.

Lemma json_mode_call_eq E system user s :
  json_mode_call E system user s
  = let r := json_mode_request E system user in
    match chat_completions_create E (calls s) r with
    | Returned c =>
        parse E (completion_text c) (called s (ChatCompletionsCreate r))
    | Thrown e => (Thrown e, called s (ChatCompletionsCreate r))
    end.
Proof.
  unfold json_mode_call, bind, openai_chat_completions_create. cbv beta zeta.
  destruct (chat_completions_create E (calls s) _); reflexivity.
Qed.

Lemma schema_call_eq E system user s :
  schema_call E system user s
  = let r := schema_request E system user in
    match responses_create E (calls s) r with
    | Returned envelope =>
        parse E (responses_text envelope) (called s (ResponsesCreate r))
    | Thrown e => (Thrown e, called s (ResponsesCreate r))
    end.
Proof.
  unfold schema_call, bind, openai_responses_create. cbv beta zeta.
  destruct (responses_create E (calls s) _); reflexivity.
Qed.

Lemma refineWithOpenAI_eq E system user s :
  refineWithOpenAI E system user s
  = if test_gpt5 (OPENAI_MODEL E) then
      match schema_call E system user s with
      | (Returned parsed, s1) => (Returned parsed, s1)
      | (Thrown _, s1) => json_mode_call E system user s1
      end
    else json_mode_call E system user s.
Proof.
  unfold refineWithOpenAI, try_catch.
  destruct (test_gpt5 (OPENAI_MODEL E)); reflexivity.
Qed.

(** [generateWithOpenAI] is the two-tier sequence of [/api/refine] run on the
    generation prompts: falling through to the JSON-mode call after the
    [catch] and calling it inside the [catch] are the same. *)
Lemma generateWithOpenAI_eq E about target s :
  generateWithOpenAI E about target s
  = refineWithOpenAI E buildSystemPrompt (buildUserPrompt E about target) s.
Proof.
  rewrite refineWithOpenAI_eq.
  unfold generateWithOpenAI, bind, try_catch, ret. cbv beta zeta.
  destruct (test_gpt5 (OPENAI_MODEL E)); [| reflexivity].
  destruct (schema_call E _ _ s) as [[parsed | e] s1]; reflexivity.
Qed.

Lemma parse_fresh E text s o s' :
  parse E text s = (o, s') -> fresh_parse E s o s'.
Proof.
  rewrite parse_eq. unfold fresh_parse.
  destruct (JSON_parse E text) as [v | msg] eqn:Hp; intros H; inversion H;
    subst; simpl; (split; [reflexivity |]).
  - right. exists text, v. repeat split. exact Hp.
  - left. eexists; split; reflexivity.
Qed.

Lemma fresh_parse_called E s c o s' :
  fresh_parse E (called s c) o s' -> fresh_parse E s o s'.
Proof. unfold fresh_parse, called; simpl. tauto. Qed.

Lemma json_mode_call_fresh E system user s o s' :
  json_mode_call E system user s = (o, s') -> fresh_parse E s o s'.
Proof.
  rewrite json_mode_call_eq. cbv zeta.
  destruct (chat_completions_create E _ _) as [c | e]; intros H.
  - eapply fresh_parse_called, parse_fresh, H.
  - inversion H; subst. split; [reflexivity |].
    left. eexists; split; reflexivity.
Qed.

Lemma schema_call_fresh E system user s o s' :
  schema_call E system user s = (o, s') -> fresh_parse E s o s'.
Proof.
  rewrite schema_call_eq. cbv zeta.
  destruct (responses_create E _ _) as [c | e]; intros H.
  - eapply fresh_parse_called, parse_fresh, H.
  - inversion H; subst. split; [reflexivity |].
    left. eexists; split; reflexivity.
Qed.

Lemma refineWithOpenAI_fresh E system user s o s' :
  refineWithOpenAI E system user s = (o, s') -> fresh_parse E s o s'.
Proof.
  rewrite refineWithOpenAI_eq.
  destruct (test_gpt5 (OPENAI_MODEL E)); [| apply json_mode_call_fresh].
  destruct (schema_call E system user s) as [[parsed | e] s1] eqn:H1.
  - intros H; inversion H; subst. eapply schema_call_fresh, H1.
  - intros H2. apply schema_call_fresh in H1. apply json_mode_call_fresh in H2.
    destruct H1 as [Hr1 [(e1 & _ & Hs1) | (t & v & _ & Habs & _)]];
      [| discriminate].
    unfold fresh_parse in *. rewrite Hs1, Hr1 in H2. exact H2.
Qed.

Lemma generateWithOpenAI_fresh E about target s o s' :
  generateWithOpenAI E about target s = (o, s') -> fresh_parse E s o s'.
Proof. rewrite generateWithOpenAI_eq. apply refineWithOpenAI_fresh. Qed.

(** ** From the parsed document to the response *)

Lemma respond_cases E gen s o s' :
  (forall o1 s1, gen s = (o1, s1) -> fresh_parse E s o1 s1) ->
  respond E gen s = (o, s') ->
  reads s' = reads s
  /\ ((exists e, o = Thrown e
                 /\ (store s' = store s
                     \/ exists v,
                          store s' = <[fresh (dom (store s)) := v]> (store s)))
      \/ (exists b v, o = Returned {| status := 200; body := b |}
                      /\ normalized_resume E b v
                      /\ store s'
                         = <[fresh (dom (store s)) := normalized v]> (store s))).
Proof.
  intros Hgen. unfold respond, bind.
  destruct (gen s) as [[l | e] s1]; specialize (Hgen _ _ eq_refl);
    destruct Hgen as [Hr [(e1 & He1 & Hs1) | (text & v & Hp & Hl & Hs1)]];
    try discriminate.
  - (* the generation returned a new object *)
    inversion Hl; subst l; clear Hl.
    set (l := fresh (dom (store s))) in *.
    assert (Hl1 : store s1 !! l = Some v)
      by (rewrite Hs1; apply lookup_insert_eq).
    destruct (normalize E l s1) as [[[] | e] s2] eqn:Hn;
      apply normalize_cases in Hn;
      destruct Hn as [(e2 & He2 & Hs2) | (v0 & Hv0 & Ho & Hret & Hs2)];
      try discriminate.
    + rewrite Hl1 in Hv0. inversion Hv0; subst v0; clear Hv0.
      unfold send_resume, bind, deref, send, ret. cbv beta.
      assert (Hl2 : store s2 !! l = Some (normalized v))
        by (rewrite Hs2; apply lookup_insert_eq).
      rewrite Hl2. intros H; inversion H; subst o s'; clear H.
      split; [rewrite Hs2; exact Hr |].
      right. exists (resume_body (wire (normalized v))), v.
      split; [reflexivity |]. split.
      * split; [exists text; exact Hp |]. split; [exact Ho | reflexivity].
      * rewrite Hs2; simpl. rewrite Hs1. apply insert_insert_eq.
    + intros H; inversion H; subst o s'; clear H. subst s2.
      split; [exact Hr |]. left. exists e. split; [reflexivity |].
      right. exists v. exact Hs1.
  - (* the generation threw *)
    inversion He1; subst e1. intros H; inversion H; subst o s'.
    split; [exact Hr |]. left. exists e. split; [reflexivity |].
    left. exact Hs1.
Qed.

Lemma first_readable_state E candidates s :
  exists found rs,
    first_readable E candidates s
    = (Returned found,
       {| store := store s; calls := calls s; reads := reads s ++ rs |}).
Proof.
  revert s. induction candidates as [| p rest IH]; intros s.
  - exists None, []. simpl. unfold ret. rewrite app_nil_r.
    destruct s; reflexivity.
  - simpl. unfold bind, readFile. cbv beta.
    set (s1 := {| store := store s; calls := calls s;
                  reads := reads s ++ [p] |}).
    destruct (IH s1) as (found & rs & Hrest). simpl in Hrest.
    rewrite <- app_assoc in Hrest.
    destruct (fs_readFile E p) as [content |].
    + destruct (bool_decide (trim content = [])); simpl.
      * exists found, ([p] ++ rs). exact Hrest.
      * exists (Some content), [p]. reflexivity.
    + exists found, ([p] ++ rs). exact Hrest.
Qed.

(** ** Normalization *)

Lemma truthy_or_default a d :
  truthy (Some d) = true -> truthy (Some (or_default a d)) = true.
Proof.
  intros Hd. unfold or_default.
  destruct a as [v |]; [| exact Hd].
  destruct (truthy (Some v)) eqn:Hv; [exact Hv | exact Hd].
Qed.

Lemma or_default_falsy a d : truthy a = false -> or_default a d = d.
Proof.
  unfold or_default. destruct a as [v |]; [| reflexivity].
  intros ->. reflexivity.
Qed.

Lemma or_default_truthy a d : truthy a = true -> Some (or_default a d) = a.
Proof.
  unfold or_default. destruct a as [v |]; [| discriminate].
  intros ->. reflexivity.
Qed.

Lemma or_default_truthy_value x d :
  truthy (Some x) = true -> or_default (Some x) d = x.
Proof. unfold or_default. intros ->. reflexivity. Qed.

Lemma experience_is_not_skills : js "experience" <> js "skills".
Proof. discriminate. Qed.

Lemma own_normalized_experience v :
  is_object (Some v) = true ->
  own (normalized v) (js "experience")
  = Some (or_default (own v (js "experience")) (arr [])).
Proof.
  intros Ho. unfold normalized. cbv zeta.
  rewrite own_with_prop_ne
    by (intros H; symmetry in H; revert H; apply experience_is_not_skills).
  apply own_with_prop_eq, Ho.
Qed.

Lemma own_normalized_skills v :
  is_object (Some v) = true ->
  own (normalized v) (js "skills")
  = Some (or_default (own v (js "skills")) (obj [("core", arr [])])).
Proof.
  intros Ho. unfold normalized. cbv zeta.
  rewrite own_with_prop_eq by (rewrite is_object_with_prop; exact Ho).
  rewrite own_with_prop_ne by apply experience_is_not_skills.
  reflexivity.
Qed.

Lemma own_normalized_other v k :
  k <> js "experience" -> k <> js "skills" ->
  own (normalized v) k = own v k.
Proof.
  intros H1 H2. unfold normalized. cbv zeta.
  rewrite !own_with_prop_ne by (intros H; symmetry in H; contradiction).
  reflexivity.
Qed.

(** C5, as the code has it. On every object (or array) [normalize] returns,
    having updated that object in place and nothing else; [experience] is
    replaced by the empty list when it is absent or falsy and kept when it is
    truthy, list or not; [skills] is replaced by [{ core: [] }] when it is
    absent or falsy and kept otherwise; no other property changes. *)
Theorem normalize_defaults (E : runtime) (l : loc) (v : value) (s : state) :
  store s !! l = Some v ->
  is_object (Some v) = true ->
  normalize E l s = (Returned tt, set_store s (<[l := normalized v]> (store s)))
  /\ (truthy (own v (js "experience")) = false ->
      own (normalized v) (js "experience") = Some (arr []))
  /\ (truthy (own v (js "experience")) = true ->
      own (normalized v) (js "experience") = own v (js "experience"))
  /\ (truthy (own v (js "skills")) = false ->
      own (normalized v) (js "skills") = Some (obj [("core", arr [])]))
  /\ (truthy (own v (js "skills")) = true ->
      own (normalized v) (js "skills") = own v (js "skills"))
  /\ (forall k, k <> js "experience" -> k <> js "skills" ->
                own (normalized v) k = own v k).
Proof.
  intros Hl Ho.
  split; [apply normalize_object; assumption |].
  rewrite own_normalized_experience, own_normalized_skills by exact Ho.
  repeat split.
  - intros H. rewrite or_default_falsy by exact H. reflexivity.
  - intros H. apply or_default_truthy, H.
  - intros H. rewrite or_default_falsy by exact H. reflexivity.
  - intros H. apply or_default_truthy, H.
  - intros k. apply own_normalized_other.
Qed.

Lemma normalize_defaults_witness :
  let s := Stub.holding (obj []) in
  store s !! 1%positive = Some (obj [])
  /\ is_object (Some (obj [])) = true
  /\ normalize Stub.offline 1%positive s
     = (Returned tt,
        set_store s (<[1%positive := normalized (obj [])]> (store s))).
Proof.
  split; [reflexivity |]. split; [reflexivity |].
  apply (normalize_defaults Stub.offline 1%positive (obj [])
           (Stub.holding (obj []))); reflexivity.
Defined.

(** C5 fails as stated: an [experience] that is not a list but truthy, here
    the string [none], is not replaced by the empty list. *)
Lemma normalize_keeps_non_list_experience :
  let raw := obj [("experience", str "none")] in
  let r := normalize Stub.offline 1%positive (Stub.holding raw) in
  fst r = Returned tt
  /\ store (snd r) !! 1%positive
     = Some (obj [("experience", str "none");
                  ("skills", obj [("core", arr [])])])
  /\ str "none" <> arr [].
Proof.
  split; [reflexivity |]. split; [reflexivity | discriminate].
Qed.

(** ** Serialisation *)

Lemma assoc_get_wire k ps :
  assoc_get k (map (fun kv => (fst kv, wire (snd kv))) ps)
  = option_map wire (assoc_get k ps).
Proof.
  induction ps as [| [k' v'] ps IH]; simpl; [reflexivity |].
  destruct (bool_decide (k' = k)); [reflexivity | exact IH].
Qed.

Lemma own_wire_object props k :
  own (wire (VObj props)) k = option_map wire (own (VObj props) k).
Proof. simpl. apply assoc_get_wire. Qed.

(** The serialised array is the array the provider sent: the properties the
    defaults assign to an array do not reach the client. *)
Lemma wire_normalized_array elems named :
  wire (normalized (VArr elems named)) = wire (VArr elems named).
Proof. reflexivity. Qed.

(** A truthy number that is written as [null]: the provider sends
    [{"experience":1e999}], which [JSON.parse] reads as Infinity. *)
Example overflow_is_serialised_as_null :
  let v := obj [("experience", VNum (S754_infinity false))] in
  own (normalized v) (js "experience") = Some (VNum (S754_infinity false))
  /\ own (wire (normalized v)) (js "experience") = Some VNull.
Proof. split; reflexivity. Qed.

(** What is written as [null]: of the truthy values, the infinities alone. *)
Lemma wire_null x :
  truthy (Some x) = true -> (wire x = VNull <-> overflowing (Some x)).
Proof.
  unfold overflowing.
  destruct x as [| b | [sign | sign | | sign m e] | str | elems named | props];
    simpl; intros Ht; try discriminate;
    (split; [intros H; try discriminate H | intros [sign' H]; discriminate H
                                            || reflexivity]).
  exists sign. reflexivity.
Qed.

(** After [x || d] with an object or array [d], [null] is written exactly
    for an overflowing [x]. *)
Lemma defaulted_null a d :
  wire d <> VNull ->
  Some (wire (or_default a d)) = Some VNull <-> overflowing a.
Proof.
  intros Hd. destruct (truthy a) eqn:Ht.
  - destruct a as [x |]; [| discriminate].
    rewrite or_default_truthy_value by exact Ht.
    rewrite <- (wire_null x Ht).
    split; [intros H; inversion H; reflexivity | intros ->; reflexivity].
  - rewrite or_default_falsy by exact Ht. split.
    + intros H. inversion H. contradiction.
    + intros [sign ->]. discriminate Ht.
Qed.

Lemma normalized_object_defaults props :
  defaults_applied (VObj props) (normalized (VObj props)).
Proof.
  set (v := VObj props).
  assert (Ho : is_object (Some v) = true) by reflexivity.
  assert (Hw : forall k, own (wire (normalized v)) k
                         = option_map wire (own (normalized v) k)).
  { intros k. apply own_wire_object. }
  unfold defaults_applied.
  split; [rewrite own_normalized_experience by exact Ho;
          apply truthy_or_default; reflexivity |].
  split; [rewrite own_normalized_skills by exact Ho;
          apply truthy_or_default; reflexivity |].
  split; [| split; [| split]].
  - intros H. rewrite own_normalized_skills by exact Ho.
    rewrite or_default_falsy by exact H. reflexivity.
  - intros H. rewrite own_normalized_skills by exact Ho.
    apply or_default_truthy, H.
  - exact Hw.
  - intros k [-> | ->]; rewrite Hw.
    + rewrite own_normalized_experience by exact Ho.
      apply defaulted_null. discriminate.
    + rewrite own_normalized_skills by exact Ho.
      apply defaulted_null. discriminate.
Qed.

(** ** The document of a successful response *)

Lemma handler_respond_returned E gen s l s1 v :
  gen s = (Returned l, s1) ->
  store s1 !! l = Some v ->
  is_object (Some v) = true ->
  handler (respond E gen) s
  = ({| status := 200; body := resume_body (wire (normalized v)) |},
     set_store s1 (<[l := normalized v]> (store s1))).
Proof.
  intros Hg Hl Ho. unfold handler, respond, bind. rewrite Hg.
  rewrite (normalize_object E l v s1 Hl Ho).
  unfold send_resume, bind, deref, send, ret. cbv beta.
  assert (H : store (set_store s1 (<[l := normalized v]> (store s1))) !! l
              = Some (normalized v)) by apply lookup_insert_eq.
  rewrite H. reflexivity.
Qed.

(** A handler answers 200 only when the generation returned an object or an
    array, and then with its normalized, serialised content. *)
Lemma handler_respond_200 E gen s :
  status (fst (handler (respond E gen) s)) = 200 ->
  exists l s1 v,
    gen s = (Returned l, s1)
    /\ store s1 !! l = Some v
    /\ is_object (Some v) = true
    /\ handler (respond E gen) s
       = ({| status := 200; body := resume_body (wire (normalized v)) |},
          set_store s1 (<[l := normalized v]> (store s1))).
Proof.
  destruct (gen s) as [[l | e] s1] eqn:Hg.
  - assert (Hthrows : (forall v, store s1 !! l = Some v ->
                                  is_object (Some v) = false) ->
                      status (fst (handler (respond E gen) s)) = 200 ->
                      False).
    { intros Hno. unfold handler, respond, bind. rewrite Hg.
      destruct (normalize E l s1) as [[[] | e] s2] eqn:Hn;
        apply normalize_cases in Hn;
        destruct Hn as [(e2 & He2 & _) | (v0 & Hv0 & Ho & Hret & _)];
        try discriminate.
      rewrite (Hno v0 Hv0) in Ho. discriminate. }
    destruct (store s1 !! l) as [v |] eqn:Hl.
    + destruct (is_object (Some v)) eqn:Ho.
      * intros _. exists l, s1, v.
        split; [reflexivity |]. split; [exact Hl |]. split; [exact Ho |].
        apply (handler_respond_returned E gen s l s1 v Hg Hl Ho).
      * intros H. exfalso. apply Hthrows; [| exact H].
        intros v0 Hv0. inversion Hv0; subst v0. exact Ho.
    + intros H. exfalso. apply Hthrows; [| exact H].
      intros v0 Hv0. discriminate Hv0.
  - unfold handler, respond, bind. rewrite Hg. simpl. discriminate.
Qed.

(** The object a JSON-mode call returns holds the parse of what the provider
    answered that call with. *)
Lemma json_mode_call_returned E system user s l s1 :
  json_mode_call E system user s = (Returned l, s1) ->
  exists completion v,
    chat_completions_create E (calls s) (json_mode_request E system user)
    = Returned completion
    /\ JSON_parse E (completion_text completion) = inl v
    /\ calls s1
       = calls s ++ [ChatCompletionsCreate (json_mode_request E system user)]
    /\ store s1 !! l = Some v.
Proof.
  rewrite json_mode_call_eq. cbv zeta.
  destruct (chat_completions_create E (calls s) _) as [completion | e];
    [| discriminate].
  rewrite parse_eq.
  destruct (JSON_parse E (completion_text completion)) as [v | msg] eqn:Hp;
    [| discriminate].
  intros H; inversion H; subst l s1; clear H.
  exists completion, v. split; [reflexivity |]. split; [exact Hp |].
  split; [reflexivity | apply lookup_insert_eq].
Qed.

(** The object a generation returns holds the document the provider sent. *)
Lemma two_tier_document E system user s l s1 :
  refineWithOpenAI E system user s = (Returned l, s1) ->
  exists v, provider_document E s s1 v /\ store s1 !! l = Some v.
Proof.
  rewrite refineWithOpenAI_eq.
  assert (Hjson : forall earlier s0,
             calls s0 = calls s ++ earlier ->
             json_mode_call E system user s0 = (Returned l, s1) ->
             exists v, provider_document E s s1 v /\ store s1 !! l = Some v).
  { intros earlier s0 Hs0 H.
    apply json_mode_call_returned in H
      as (completion & v & Hc & Hp & Hcalls & Hl).
    exists v. split; [| exact Hl].
    exists earlier, (ChatCompletionsCreate (json_mode_request E system user)).
    rewrite <- Hs0. split; [exact Hcalls |].
    exists completion. split; [exact Hc | exact Hp]. }
  destruct (test_gpt5 (OPENAI_MODEL E)).
  - rewrite schema_call_eq. cbv zeta.
    destruct (responses_create E (calls s) _) as [envelope | e] eqn:Hr.
    + rewrite parse_eq.
      destruct (JSON_parse E (responses_text envelope)) as [v | msg] eqn:Hp.
      * intros H; inversion H; subst l s1; clear H.
        exists v. split; [| apply lookup_insert_eq].
        exists [], (ResponsesCreate (schema_request E system user)).
        rewrite app_nil_r. split; [reflexivity |].
        exists envelope. split; [exact Hr | exact Hp].
      * apply (Hjson [ResponsesCreate (schema_request E system user)]).
        reflexivity.
    + apply (Hjson [ResponsesCreate (schema_request E system user)]).
      reflexivity.
  - apply (Hjson []). rewrite app_nil_r. reflexivity.
Qed.

(** A successful response of the generation stage carries the provider's
    document, normalized. *)
Lemma generation_stage_200 E system user s0 s :
  calls s0 = calls s ->
  status (fst (handler (respond E (refineWithOpenAI E system user)) s0)) = 200 ->
  returns_normalized E s
    (handler (respond E (refineWithOpenAI E system user)) s0).
Proof.
  intros Hcalls H.
  apply handler_respond_200 in H as (l & s1 & v & Hg & Hl & Ho & ->).
  apply two_tier_document in Hg as (v' & Hdoc & Hl').
  assert (v' = v) as -> by congruence.
  exists v. split; [| split; [exact Ho | split; [reflexivity |]]].
  - destruct Hdoc as (earlier & last & Hlog & Hlast).
    exists earlier, last. simpl. rewrite <- Hcalls. split; assumption.
  - intros props ->. apply normalized_object_defaults.
Qed.

(** ** Paths through the handlers *)

Lemma handler_generate_validated_200 E about target s0 s :
  calls s0 = calls s ->
  status (fst (handler (generate_validated E about target) s0)) = 200 ->
  returns_normalized E s (handler (generate_validated E about target) s0).
Proof.
  intros Hcalls. unfold generate_validated.
  destruct (api_key_configured E); simpl negb; cbv iota; [| discriminate].
  change (handler _ s0)
    with (handler (respond E (generateWithOpenAI E about target)) s0).
  assert (Heq : handler (respond E (generateWithOpenAI E about target)) s0
                = handler (respond E (refineWithOpenAI E buildSystemPrompt
                                        (buildUserPrompt E about target))) s0)
    by (unfold handler, respond, bind; rewrite generateWithOpenAI_eq;
        reflexivity).
  rewrite Heq. apply generation_stage_200, Hcalls.
Qed.

Lemma api_generate_200 E req s :
  status (fst (api_generate E req s)) = 200 ->
  returns_normalized E s (api_generate E req s).
Proof.
  unfold api_generate.
  destruct (nonblank_string (targetText req)) as [target |];
    [| discriminate].
  destruct (nonblank_string (aboutMe req)) as [about |].
  - apply handler_generate_validated_200. reflexivity.
  - unfold handler, bind, readAboutMeFromDisk.
    destruct (first_readable_state E [ParentAboutMe; CwdAboutMe] s)
      as (found & rs & ->).
    set (s1 := {| store := store s; calls := calls s;
                  reads := reads s ++ rs |}).
    destruct (negb (truthy (Some (VStr (string_or found []))))).
    + discriminate.
    + apply (handler_generate_validated_200 E (string_or found []) target
               s1 s).
      reflexivity.
Qed.

Lemma api_refine_200 E req s :
  status (fst (api_refine E req s)) = 200 ->
  returns_normalized E s (api_refine E req s).
Proof.
  unfold api_refine.
  unfold handler, bind.
  destruct (resume req) as [l |]; unfold deref, ret; cbv beta;
    [| discriminate].
  destruct (store s !! l) as [prior |]; [| discriminate].
  destruct (negb (truthy (Some prior))
            || negb (bool_decide (typeof (Some prior) = TObject)));
    [discriminate |].
  destruct (nonempty_string (feedback req)) as [fb |]; [| discriminate].
  destruct (api_key_configured E); simpl negb; cbv iota; [| discriminate].
  apply (generation_stage_200 E refineSystemPrompt
           (refineUserPrompt E prior fb) s s).
  reflexivity.
Qed.

(** C2, as the code has it. Every generate or refine response with status
    200 is [{ resume: doc }] serialised, where [doc] is the document the
    provider sent in answer to the last SDK call of the request, an object
    or an array, after the two defaults.  When that document is a JSON
    object, [experience] and [skills] are present and truthy in [doc] and
    present in the body; [skills] is [{ core: [] }] when the provider sent no
    truthy [skills], and the provider's own [skills], with or without a
    [core], when it sent one; either property is [null] in the body exactly
    when the provider sent for it a number that overflows to an infinity,
    which is truthy, hence kept, and written as [null]. *)
Theorem successful_call_returns_normalized (E : runtime) :
  (forall req s,
      status (fst (api_generate E req s)) = 200 ->
      returns_normalized E s (api_generate E req s))
  /\ (forall req s,
         status (fst (api_refine E req s)) = 200 ->
         returns_normalized E s (api_refine E req s)).
Proof.
  split; intros req s.
  - apply api_generate_200.
  - apply api_refine_200.
Qed.

Lemma successful_call_returns_normalized_witness :
  status (fst (api_generate Stub.fallback_runtime Stub.request Stub.initial))
  = 200
  /\ returns_normalized Stub.fallback_runtime Stub.initial
       (api_generate Stub.fallback_runtime Stub.request Stub.initial).
Proof.
  split; [reflexivity |].
  apply (proj1 (successful_call_returns_normalized Stub.fallback_runtime)
           Stub.request Stub.initial).
  reflexivity.
Defined.

(** C2 fails as stated: the provider answers [{"skills":{}}], the call
    succeeds, and the returned document has a [skills] without [core]. *)
Lemma successful_call_without_skills_core :
  let r := fst (api_generate Stub.fallback_runtime Stub.request Stub.initial) in
  status r = 200
  /\ body r = resume_body (obj [("skills", obj []); ("experience", arr [])])
  /\ own (obj []) (js "core") = None.
Proof. repeat split. Qed.

(** The provider answers [{"experience":1e999}]: the call succeeds and the
    body carries [experience: null]. *)
Example overflowing_experience_is_sent_as_null :
  let r := fst (api_generate Stub.overflow_runtime Stub.request Stub.initial) in
  status r = 200
  /\ body r = resume_body (obj [("experience", VNull);
                                ("skills", obj [("core", arr [])])]).
Proof. split; reflexivity. Qed.

(** ** The store under a handler *)

Lemma fresh_insert_subseteq (h : gmap loc value) (v : value) :
  h ⊆ <[fresh (dom h) := v]> h.
Proof. apply insert_subseteq, not_elem_of_dom_1, is_fresh. Qed.

Lemma handler_respond_frame E gen s :
  (forall o1 s1, gen s = (o1, s1) -> fresh_parse E s o1 s1) ->
  let r := handler (respond E gen) s in
  store s ⊆ store (snd r)
  /\ reads (snd r) = reads s
  /\ (status (fst r) = 200 ->
      exists l doc,
        (l ∉ dom (store s))
        /\ store (snd r) !! l = Some doc
        /\ body (fst r) = resume_body (wire doc)).
Proof.
  intros Hgen. cbv zeta. unfold handler.
  destruct (respond E gen s) as [o s'] eqn:H.
  apply respond_cases in H; [| exact Hgen].
  destruct H as [Hr [(e & -> & Hs) | (b & v & -> & Hn & Hs)]]; simpl.
  - split; [| split; [exact Hr | discriminate]].
    destruct Hs as [-> | [v ->]]; [reflexivity | apply fresh_insert_subseteq].
  - split; [rewrite Hs; apply fresh_insert_subseteq |].
    split; [exact Hr |]. intros _.
    exists (fresh (dom (store s))), (normalized v).
    split; [apply is_fresh |].
    split; [rewrite Hs; apply lookup_insert_eq |].
    destruct Hn as (_ & _ & ->). reflexivity.
Qed.

(** C8. A refine call leaves every object of the store as it was, the prior
    resume among them, whether it succeeds or fails; the document of a
    successful call is a new object, at an address the store did not hold. *)
Theorem refine_leaves_prior_untouched (E : runtime) (req : refine_body)
    (s : state) :
  let r := api_refine E req s in
  store s ⊆ store (snd r)
  /\ (forall prior,
         prior_resume req s = Some prior ->
         prior_resume req (snd r) = Some prior)
  /\ (status (fst r) = 200 ->
      exists l doc,
        (l ∉ dom (store s))
        /\ store (snd r) !! l = Some doc
        /\ body (fst r) = resume_body (wire doc)).
Proof.
  cbv zeta.
  assert (H : store s ⊆ store (snd (api_refine E req s))
              /\ (status (fst (api_refine E req s)) = 200 ->
                  exists l doc,
                    (l ∉ dom (store s))
                    /\ store (snd (api_refine E req s)) !! l = Some doc
                    /\ body (fst (api_refine E req s))
                       = resume_body (wire doc))).
  { unfold api_refine. unfold handler, bind.
    destruct (resume req) as [l |]; unfold deref, ret; cbv beta;
      [| split; [reflexivity | discriminate]].
    destruct (store s !! l) as [prior |];
      [| split; [reflexivity | discriminate]].
    destruct (negb (truthy (Some prior))
              || negb (bool_decide (typeof (Some prior) = TObject)));
      [split; [reflexivity | discriminate] |].
    destruct (nonempty_string (feedback req)) as [fb |];
      [| split; [reflexivity | discriminate]].
    destruct (api_key_configured E); simpl negb; cbv iota;
      [| split; [reflexivity | discriminate]].
    destruct (handler_respond_frame E
                (refineWithOpenAI E refineSystemPrompt
                   (refineUserPrompt E prior fb)) s) as (H1 & _ & H2);
      [intros o1 s1; apply refineWithOpenAI_fresh |].
    split; [exact H1 | exact H2]. }
  destruct H as [Hsub H200].
  split; [exact Hsub |]. split; [| exact H200].
  intros prior. unfold prior_resume.
  destruct (resume req) as [l |]; [| discriminate].
  intros Hl. eapply lookup_weaken; [exact Hl | exact Hsub].
Qed.

Lemma refine_leaves_prior_untouched_witness :
  let s := Stub.holding Stub.prior in
  let r := api_refine Stub.fallback_runtime Stub.refine_request s in
  prior_resume Stub.refine_request s = Some Stub.prior
  /\ status (fst r) = 200
  /\ prior_resume Stub.refine_request (snd r) = Some Stub.prior
  /\ exists l doc,
       (l ∉ dom (store s))
       /\ store (snd r) !! l = Some doc
       /\ body (fst r) = resume_body (wire doc).
Proof.
  cbv zeta.
  pose proof (refine_leaves_prior_untouched Stub.fallback_runtime
                Stub.refine_request (Stub.holding Stub.prior)) as H.
  cbv zeta in H. destruct H as (_ & Hprior & Hnew).
  split; [reflexivity |]. split; [reflexivity |].
  split; [apply Hprior; reflexivity | apply Hnew; reflexivity].
Defined.

(** ** The calls made by the two tiers *)

Lemma parse_calls E text s : calls (snd (parse E text s)) = calls s.
Proof. rewrite parse_eq. destruct (JSON_parse E text); reflexivity. Qed.

(** The SDK calls of a generation: the schema-constrained call when the
    model matches, followed by the JSON-mode call when it failed; the
    JSON-mode call alone otherwise. *)
Lemma two_tier_calls E system user s :
  let r1 := schema_request E system user in
  let r2 := json_mode_request E system user in
  calls (snd (refineWithOpenAI E system user s))
  = calls s
    ++ (if test_gpt5 (OPENAI_MODEL E)
        then ResponsesCreate r1
             :: (if tier1_succeeds E (calls s) r1 then []
                 else [ChatCompletionsCreate r2])
        else [ChatCompletionsCreate r2]).
Proof.
  cbv zeta. rewrite refineWithOpenAI_eq.
  assert (Hjson : forall s0,
             calls (snd (json_mode_call E system user s0))
             = calls s0 ++ [ChatCompletionsCreate
                              (json_mode_request E system user)]).
  { intros s0. rewrite json_mode_call_eq. cbv zeta.
    destruct (chat_completions_create E _ _); [| reflexivity].
    rewrite parse_calls. reflexivity. }
  destruct (test_gpt5 (OPENAI_MODEL E)); [| apply Hjson].
  rewrite schema_call_eq. cbv zeta. unfold tier1_succeeds.
  destruct (responses_create E _ _) as [envelope | e].
  - rewrite parse_eq.
    destruct (JSON_parse E (responses_text envelope)); [reflexivity |].
    rewrite Hjson. simpl. rewrite <- app_assoc. reflexivity.
  - rewrite Hjson. simpl. rewrite <- app_assoc. reflexivity.
Qed.

Lemma new_calls_app s s' l : calls s' = calls s ++ l -> new_calls s s' = l.
Proof. unfold new_calls. intros ->. apply drop_app_length. Qed.

(** No generation makes more than two SDK calls. *)
Corollary at_most_two_calls E system user s :
  (length (new_calls s (snd (refineWithOpenAI E system user s))) <= 2)%nat.
Proof.
  rewrite (new_calls_app _ _ _ (two_tier_calls E system user s)).
  destruct (test_gpt5 (OPENAI_MODEL E));
    [destruct (tier1_succeeds E _ _) |]; simpl; lia.
Qed.

Lemma ci_eq_spec pat c :
  ci_eq pat c = true
  <-> c = pat \/ ((97 <= pat)%N /\ (pat <= 122)%N /\ c = (pat - 32)%N).
Proof.
  unfold ci_eq.
  rewrite orb_true_iff, !andb_true_iff, !N.eqb_eq, !N.leb_le. tauto.
Qed.

Lemma test_gpt5_spec model : test_gpt5 model = true <-> matches_gpt5 model.
Proof.
  unfold test_gpt5, matches_gpt5.
  change (js "gpt-5") with [103; 112; 116; 45; 53]%N.
  split.
  - destruct model as [| g [| p [| t [| h [| d rest]]]]]; cbn [ci_prefix];
      rewrite ?andb_true_iff, ?ci_eq_spec; intros H;
      try (decompose [and] H; discriminate).
    destruct H as (Hg & Hp & Ht & Hh & Hd & _).
    exists g, p, t, rest.
    assert (h = 45%N) as -> by lia. assert (d = 53%N) as -> by lia.
    split; [reflexivity |]. repeat split; lia.
  - intros (g & p & t & rest & -> & Hg & Hp & Ht).
    destruct Hg as [-> | ->], Hp as [-> | ->], Ht as [-> | ->]; reflexivity.
Qed.

Lemma api_generate_valid E req about target s :
  valid_generate req about target ->
  api_generate E req s = handler (generate_validated E about target) s.
Proof.
  intros (Ht & Htrim & Ha & Hatrim). unfold api_generate.
  assert (H1 : nonblank_string (targetText req) = Some target)
    by (apply nonblank_string_Some; split; assumption).
  assert (H2 : nonblank_string (aboutMe req) = Some about)
    by (apply nonblank_string_Some; split; assumption).
  rewrite H1, H2. reflexivity.
Qed.

Lemma api_refine_valid E req prior fb s :
  valid_refine req s prior fb ->
  api_refine E req s
  = handler
      (if negb (api_key_configured E)
       then send 500 (error_body key_missing_message)
       else respond E (refineWithOpenAI E refineSystemPrompt
                         (refineUserPrompt E prior fb))) s.
Proof.
  intros (Hp & Ho & Hf & Hfb). unfold prior_resume in Hp.
  assert (H1 : nonempty_string (feedback req) = Some fb)
    by (apply nonempty_string_Some; split; assumption).
  unfold api_refine, handler, bind.
  destruct (resume req) as [l |]; [| discriminate].
  unfold deref. rewrite Hp, is_object_spec, Ho, H1. reflexivity.
Qed.

(** C1. When the model selects the schema-constrained call and that call is
    rejected or its payload fails to parse, [generateWithOpenAI] makes the
    JSON-mode call once, with the same system and user text, and is the parse
    of its payload: exactly two SDK calls are logged, whatever the second one
    yields, and when its payload parses to [v] the function returns a new
    object holding [v]. *)
Theorem generate_falls_back_once (E : runtime) (about target : jsstring)
    (s : state) :
  let system := buildSystemPrompt in
  let user := buildUserPrompt E about target in
  let r1 := schema_request E system user in
  let r2 := json_mode_request E system user in
  let s1 := called s (ResponsesCreate r1) in
  let s2 := called s1 (ChatCompletionsCreate r2) in
  test_gpt5 (OPENAI_MODEL E) = true ->
  tier1_fails E (calls s) r1 ->
  generateWithOpenAI E about target s
  = match chat_completions_create E (calls s1) r2 with
    | Returned c => parse E (completion_text c) s2
    | Thrown e => (Thrown e, s2)
    end
  /\ calls (snd (generateWithOpenAI E about target s))
     = calls s ++ [ResponsesCreate r1; ChatCompletionsCreate r2]
  /\ (rq_system r1 = cq_system r2 /\ rq_user r1 = cq_user r2
      /\ cq_response_format r2 = js "json_object")
  /\ (forall c v,
         chat_completions_create E (calls s1) r2 = Returned c ->
         JSON_parse E (completion_text c) = inl v ->
         exists l,
           (l ∉ dom (store s))
           /\ generateWithOpenAI E about target s
              = (Returned l, set_store s2 (<[l := v]> (store s)))).
Proof.
  cbv zeta. intros Hmodel Hfail.
  assert (Heq : generateWithOpenAI E about target s
                = json_mode_call E buildSystemPrompt
                    (buildUserPrompt E about target)
                    (called s (ResponsesCreate
                                 (schema_request E buildSystemPrompt
                                    (buildUserPrompt E about target))))).
  { rewrite generateWithOpenAI_eq, refineWithOpenAI_eq, Hmodel.
    rewrite schema_call_eq. cbv zeta.
    unfold tier1_fails, tier1_succeeds in Hfail.
    destruct (responses_create E _ _) as [envelope | e]; [| reflexivity].
    rewrite parse_eq.
    destruct (JSON_parse E (responses_text envelope));
      [discriminate | reflexivity]. }
  rewrite json_mode_call_eq in Heq. cbv zeta in Heq.
  split; [exact Heq |].
  split.
  { rewrite generateWithOpenAI_eq.
    pose proof (two_tier_calls E buildSystemPrompt
                  (buildUserPrompt E about target) s) as Hc.
    cbv zeta in Hc. rewrite Hmodel in Hc.
    unfold tier1_fails in Hfail. rewrite Hfail in Hc. exact Hc. }
  split; [repeat split |].
  intros c v Hc Hv. rewrite Heq, Hc, parse_eq, Hv.
  exists (fresh (dom (store s))). split; [apply is_fresh | reflexivity].
Qed.

Lemma generate_falls_back_once_witness :
  let E := Stub.fallback_runtime in
  let about := Stub.about in
  let target := Stub.target in
  let system := buildSystemPrompt in
  let user := buildUserPrompt E about target in
  test_gpt5 (OPENAI_MODEL E) = true
  /\ tier1_fails E [] (schema_request E system user)
  /\ calls (snd (generateWithOpenAI E about target Stub.initial))
     = [ResponsesCreate (schema_request E system user);
        ChatCompletionsCreate (json_mode_request E system user)].
Proof.
  cbv zeta. split; [reflexivity |]. split; [reflexivity |].
  apply (generate_falls_back_once Stub.fallback_runtime Stub.about
           Stub.target Stub.initial); reflexivity.
Defined.

Lemma respond_calls E gen s :
  calls (snd (respond E gen s)) = calls (snd (gen s)).
Proof.
  unfold respond, bind.
  destruct (gen s) as [[l | e] s1]; [| reflexivity]. simpl.
  destruct (normalize E l s1) as [[[] | e] s2] eqn:Hn;
    apply normalize_cases in Hn;
    destruct Hn as [(e2 & He2 & ->) | (v0 & _ & _ & _ & ->)];
    try discriminate; reflexivity.
Qed.

Lemma handler_state m s : snd (handler m s) = snd (m s).
Proof. unfold handler. destruct (m s) as [[r | e] s']; reflexivity. Qed.

Lemma handler_respond_thrown E gen s e s' :
  gen s = (Thrown e, s') -> handler (respond E gen) s = (failure e, s').
Proof. intros H. unfold handler, respond, bind. rewrite H. reflexivity. Qed.

Lemma two_tier_attempted E system user s :
  tier1_attempted s (snd (refineWithOpenAI E system user s))
  <-> matches_gpt5 (OPENAI_MODEL E).
Proof.
  rewrite <- test_gpt5_spec. unfold tier1_attempted.
  rewrite (new_calls_app _ _ _ (two_tier_calls E system user s)).
  destruct (test_gpt5 (OPENAI_MODEL E)); split.
  - reflexivity.
  - intros _. eexists. left. reflexivity.
  - intros [r [H | []]]. discriminate.
  - discriminate.
Qed.

(** With a model that does not match, the JSON-mode call is the only call,
    and its rejection is the failure of the generation. *)
Lemma single_tier E system user s :
  test_gpt5 (OPENAI_MODEL E) = false ->
  let r := json_mode_request E system user in
  calls (snd (refineWithOpenAI E system user s))
  = calls s ++ [ChatCompletionsCreate r]
  /\ forall e,
       chat_completions_create E (calls s) r = Thrown e ->
       refineWithOpenAI E system user s
       = (Thrown e, called s (ChatCompletionsCreate r)).
Proof.
  intros Hm. cbv zeta. split.
  - pose proof (two_tier_calls E system user s) as H. cbv zeta in H.
    rewrite Hm in H. exact H.
  - intros e He. rewrite refineWithOpenAI_eq, Hm, json_mode_call_eq.
    cbv zeta. rewrite He. reflexivity.
Qed.

(** C10. The schema-constrained call is made by a generation, of
    [/api/generate] or of [/api/refine], exactly when the configured model
    matches [^gpt-5] in either case.  With any other model a request that
    passes validation makes the JSON-mode call and no other, and if that call
    is rejected the request fails with the 500 of that rejection. *)
Theorem tier1_attempted_iff_gpt5 (E : runtime) :
  (forall about target s,
      tier1_attempted s (snd (generateWithOpenAI E about target s))
      <-> matches_gpt5 (OPENAI_MODEL E))
  /\ (forall system user s,
         tier1_attempted s (snd (refineWithOpenAI E system user s))
         <-> matches_gpt5 (OPENAI_MODEL E))
  /\ (~ matches_gpt5 (OPENAI_MODEL E) ->
      api_key_configured E = true ->
      (forall req about target s,
          valid_generate req about target ->
          let r := json_mode_request E buildSystemPrompt
                     (buildUserPrompt E about target) in
          new_calls s (snd (api_generate E req s)) = [ChatCompletionsCreate r]
          /\ forall e,
               chat_completions_create E (calls s) r = Thrown e ->
               api_generate E req s
               = (failure e, called s (ChatCompletionsCreate r)))
      /\ (forall req prior fb s,
             valid_refine req s prior fb ->
             let r := json_mode_request E refineSystemPrompt
                        (refineUserPrompt E prior fb) in
             new_calls s (snd (api_refine E req s))
             = [ChatCompletionsCreate r]
             /\ forall e,
                  chat_completions_create E (calls s) r = Thrown e ->
                  api_refine E req s
                  = (failure e, called s (ChatCompletionsCreate r)))).
Proof.
  split; [| split].
  - intros about target s. rewrite generateWithOpenAI_eq.
    apply two_tier_attempted.
  - apply two_tier_attempted.
  - intros Hno Hkey.
    assert (Hm : test_gpt5 (OPENAI_MODEL E) = false).
    { destruct (test_gpt5 (OPENAI_MODEL E)) eqn:Ht; [| reflexivity].
      apply test_gpt5_spec in Ht. contradiction. }
    split.
    + intros req about target s Hv. cbv zeta.
      rewrite (api_generate_valid E req about target s Hv).
      unfold generate_validated. rewrite Hkey. simpl negb. cbv iota.
      change (handler _ s)
        with (handler (respond E (generateWithOpenAI E about target)) s).
      destruct (single_tier E buildSystemPrompt
                  (buildUserPrompt E about target) s Hm) as [Hc Hf].
      split.
      * apply new_calls_app.
        rewrite handler_state, respond_calls, generateWithOpenAI_eq.
        exact Hc.
      * intros e He. apply handler_respond_thrown.
        rewrite generateWithOpenAI_eq. apply Hf, He.
    + intros req prior fb s Hv. cbv zeta.
      rewrite (api_refine_valid E req prior fb s Hv).
      rewrite Hkey. simpl negb. cbv iota.
      destruct (single_tier E refineSystemPrompt
                  (refineUserPrompt E prior fb) s Hm) as [Hc Hf].
      split.
      * apply new_calls_app. rewrite handler_state, respond_calls. exact Hc.
      * intros e He. apply handler_respond_thrown, Hf, He.
Qed.

Lemma stub_request_valid : valid_generate Stub.request Stub.about Stub.target.
Proof. repeat split; intros H; vm_compute in H; discriminate H. Qed.

Lemma stub_refine_request_valid :
  valid_refine Stub.refine_request (Stub.holding Stub.prior) Stub.prior
    (js "condense").
Proof. repeat split. intros H; discriminate H. Qed.

Lemma tier1_attempted_iff_gpt5_witness :
  let E := Stub.other_model in
  let r := json_mode_request E buildSystemPrompt
             (buildUserPrompt E Stub.about Stub.target) in
  ~ matches_gpt5 (OPENAI_MODEL E)
  /\ api_key_configured E = true
  /\ new_calls Stub.initial (snd (api_generate E Stub.request Stub.initial))
     = [ChatCompletionsCreate r]
  /\ api_generate E Stub.request Stub.initial
     = (failure Stub.unsupported,
        called Stub.initial (ChatCompletionsCreate r)).
Proof.
  cbv zeta.
  assert (Hno : ~ matches_gpt5 (OPENAI_MODEL Stub.other_model)).
  { intros H. apply test_gpt5_spec in H. discriminate H. }
  split; [exact Hno |]. split; [reflexivity |].
  destruct (proj1 (proj2 (proj2 (tier1_attempted_iff_gpt5 Stub.other_model))
                     Hno eq_refl)
              Stub.request Stub.about Stub.target Stub.initial
              stub_request_valid) as [Hcalls Hfail].
  split; [exact Hcalls | apply Hfail; reflexivity].
Defined.

(** ** Unparseable output *)

(** C3 (the code differs). Both tiers answer [not json]: [/api/generate]
    responds with the 500 of any caught error, its body the message of the
    SyntaxError alone, no [raw] text; the earlier handler of the repository
    answers the same content with 502, "Model returned invalid JSON" and the
    raw text. *)
Theorem unparseable_output_is_a_bare_500 :
  let E := Stub.unparseable_runtime in
  fst (api_generate E Stub.request Stub.initial)
  = {| status := 500;
       body := error_body (js "Unexpected token o in JSON at position 1") |}
  /\ length (calls (snd (api_generate E Stub.request Stub.initial))) = 2%nat
  /\ fst (Legacy.api_generate E (targetText Stub.request) Stub.initial)
     = {| status := 502;
          body := VObj [(js "error", VStr (js "Model returned invalid JSON"));
                        (js "raw", VStr (js "not json"))] |}.
Proof. repeat split. Qed.

(** Whatever the runtime, an unparseable JSON-mode payload is answered with
    the message of the SyntaxError and nothing else. *)
Lemma unparseable_fallback_response E system user s c msg :
  tier1_fails E (calls s) (schema_request E system user)
  \/ test_gpt5 (OPENAI_MODEL E) = false ->
  (forall h r, chat_completions_create E h r = Returned c) ->
  JSON_parse E (completion_text c) = inr msg ->
  fst (handler (respond E (refineWithOpenAI E system user)) s)
  = failure {| err_name := SyntaxError; message := msg |}.
Proof.
  intros H1 Hc Hp.
  assert (Hj : forall s0,
             json_mode_call E system user s0
             = (Thrown {| err_name := SyntaxError; message := msg |},
                called s0 (ChatCompletionsCreate
                             (json_mode_request E system user)))).
  { intros s0. rewrite json_mode_call_eq. cbv zeta.
    rewrite Hc, parse_eq, Hp. reflexivity. }
  assert (Hg : exists s', refineWithOpenAI E system user s
                          = (Thrown {| err_name := SyntaxError;
                                       message := msg |}, s')).
  { rewrite refineWithOpenAI_eq.
    destruct (test_gpt5 (OPENAI_MODEL E)) eqn:Hm.
    - destruct H1 as [H1 | H1]; [| discriminate].
      unfold tier1_fails, tier1_succeeds in H1.
      rewrite schema_call_eq. cbv zeta.
      destruct (responses_create E _ _) as [envelope | e].
      + rewrite parse_eq.
        destruct (JSON_parse E (responses_text envelope)); [discriminate |].
        rewrite Hj. eexists; reflexivity.
      + rewrite Hj. eexists; reflexivity.
    - rewrite Hj. eexists; reflexivity. }
  destruct Hg as [s' Hg].
  rewrite (handler_respond_thrown E _ s _ s' Hg). reflexivity.
Qed.

(** When the JSON-mode call decides, the generation is that call and the
    parse of its content, after the schema-constrained call if one was
    made. *)
Lemma json_mode_decides_eq E system user s o :
  json_mode_decides E system user s o ->
  exists s1,
    calls s1
    = calls s ++ (if test_gpt5 (OPENAI_MODEL E)
                  then [ResponsesCreate (schema_request E system user)]
                  else [])
    /\ store s1 = store s
    /\ reads s1 = reads s
    /\ refineWithOpenAI E system user s
       = match o with
         | Returned c =>
             parse E (completion_text c)
               (called s1 (ChatCompletionsCreate
                             (json_mode_request E system user)))
         | Thrown e =>
             (Thrown e,
              called s1 (ChatCompletionsCreate
                           (json_mode_request E system user)))
         end.
Proof.
  unfold json_mode_decides. cbv zeta.
  intros [[Hm Hc] | (Hm & Hfail & Hc)]; rewrite refineWithOpenAI_eq, Hm.
  - exists s. rewrite app_nil_r. repeat split.
    rewrite json_mode_call_eq. cbv zeta. rewrite Hc. reflexivity.
  - exists (called s (ResponsesCreate (schema_request E system user))).
    repeat split.
    unfold tier1_fails, tier1_succeeds in Hfail.
    rewrite schema_call_eq. cbv zeta.
    assert (Hj : json_mode_call E system user
                   (called s (ResponsesCreate (schema_request E system user)))
                 = match o with
                   | Returned c =>
                       parse E (completion_text c)
                         (called
                            (called s (ResponsesCreate
                                         (schema_request E system user)))
                            (ChatCompletionsCreate
                               (json_mode_request E system user)))
                   | Thrown e =>
                       (Thrown e,
                        called
                          (called s (ResponsesCreate
                                       (schema_request E system user)))
                          (ChatCompletionsCreate
                             (json_mode_request E system user)))
                   end).
    { rewrite json_mode_call_eq. cbv zeta.
      change (calls (called s (ResponsesCreate
                                 (schema_request E system user))))
        with (calls s ++ [ResponsesCreate (schema_request E system user)]).
      rewrite Hc. reflexivity. }
    destruct (responses_create E _ _) as [envelope | e]; [| exact Hj].
    rewrite parse_eq.
    destruct (JSON_parse E (responses_text envelope)); [discriminate |].
    exact Hj.
Qed.

(** ** Timeouts *)





Lemma on_catch_abort msg :
  on_catch {| ex_name := js "AbortError"; ex_message := msg |}
  = new_Error (js "Request timed out. Please try again.").
Proof. reflexivity. Qed.








(** ** Where [aboutMe] comes from *)

Lemma two_tier_reads E system user s :
  reads (snd (refineWithOpenAI E system user s)) = reads s.
Proof.
  destruct (refineWithOpenAI E system user s) as [o s'] eqn:H.
  apply refineWithOpenAI_fresh in H. destruct H as [H _]. exact H.
Qed.

Lemma generate_validated_reads E about target s :
  reads (snd (handler (generate_validated E about target) s)) = reads s.
Proof.
  unfold generate_validated.
  destruct (api_key_configured E); simpl negb; cbv iota; [| reflexivity].
  destruct (handler_respond_frame E (generateWithOpenAI E about target) s)
    as (_ & H & _); [intros o1 s1; apply generateWithOpenAI_fresh |].
  exact H.
Qed.

(** C9. [generateWithOpenAI] takes [aboutMe] as a parameter: it reads no
    file, and what it does is the same under any other file system.  The
    handler of a request that supplies a non-blank [aboutMe] reads no file
    either and answers the same under any other file system.  When [aboutMe]
    is not supplied it is the handler that reads the candidate files, and it
    passes what it found on as that parameter, or answers 400. *)
Theorem about_me_is_a_parameter (E : runtime) :
  (forall f about target s,
      generateWithOpenAI (with_fs E f) about target s
      = generateWithOpenAI E about target s
      /\ reads (snd (generateWithOpenAI E about target s)) = reads s)
  /\ (forall f req about target s,
         valid_generate req about target ->
         api_generate (with_fs E f) req s = api_generate E req s
         /\ reads (snd (api_generate E req s)) = reads s)
  /\ (forall req target s,
         nonblank_string (targetText req) = Some target ->
         absent_or_blank (aboutMe req) ->
         exists found rs,
           let s1 := {| store := store s; calls := calls s;
                        reads := reads s ++ rs |} in
           readAboutMeFromDisk E s = (Returned found, s1)
           /\ api_generate E req s
              = match found with
                | Some (c :: content) =>
                    handler (generate_validated E (c :: content) target) s1
                | _ =>
                    ({| status := 400;
                        body := error_body (js "Missing aboutMe content") |},
                     s1)
                end).
Proof.
  split; [| split].
  - intros f about target s. split; [reflexivity |].
    rewrite generateWithOpenAI_eq. apply two_tier_reads.
  - intros f req about target s Hv.
    rewrite !(api_generate_valid _ req about target s Hv).
    split; [reflexivity | apply generate_validated_reads].
  - intros req target s Ht Ha. apply nonblank_string_None in Ha.
    unfold readAboutMeFromDisk.
    destruct (first_readable_state E [ParentAboutMe; CwdAboutMe] s)
      as (found & rs & Hread).
    exists found, rs. cbv zeta. split; [exact Hread |].
    unfold api_generate. rewrite Ht, Ha.
    unfold handler at 1, bind, readAboutMeFromDisk. rewrite Hread.
    destruct found as [[| c content] |]; reflexivity.
Qed.

Lemma about_me_is_a_parameter_witness :
  let E := Stub.fallback_runtime in
  let unreadable := fun _ : aboutme_path => None in
  valid_generate Stub.request Stub.about Stub.target
  /\ api_generate (with_fs E unreadable) Stub.request Stub.initial
     = api_generate E Stub.request Stub.initial
  /\ reads (snd (api_generate E Stub.request Stub.initial)) = [].
Proof.
  cbv zeta. split; [exact stub_request_valid |].
  apply (proj1 (proj2 (about_me_is_a_parameter Stub.fallback_runtime))
           (fun _ => None) Stub.request Stub.about Stub.target Stub.initial
           stub_request_valid).
Defined.

(** * Further properties of the server *)

(** ** Reading [aboutme.txt] *)

Lemma first_readable_nil E s : first_readable E [] s = (Returned None, s).
Proof. reflexivity. Qed.

Lemma read_files_app s ps qs :
  read_files (read_files s ps) qs = read_files s (ps ++ qs).
Proof. unfold read_files; simpl. rewrite app_assoc. reflexivity. Qed.

Lemma read_files_nil s :
  read_files s [] = s.
Proof. unfold read_files. rewrite app_nil_r. destruct s; reflexivity. Qed.

Lemma first_readable_cons E p rest s :
  first_readable E (p :: rest) s
  = match usable E p with
    | Some content => (Returned (Some content), read_files s [p])
    | None => first_readable E rest (read_files s [p])
    end.
Proof.
  simpl. unfold bind, readFile, usable. cbv beta.
  destruct (fs_readFile E p) as [content |]; [| reflexivity].
  simpl. destruct (bool_decide (trim content = [])); reflexivity.
Qed.

Lemma usable_Some E p c :
  usable E p = Some c -> fs_readFile E p = Some c /\ trim c <> [].
Proof.
  unfold usable. destruct (fs_readFile E p) as [content |]; [| discriminate].
  destruct (bool_decide (trim content = [])) eqn:Hb; [discriminate |].
  intros H; inversion H; subst. split; [reflexivity |].
  apply bool_decide_eq_false in Hb. exact Hb.
Qed.

(** X1. [readAboutMeFromDisk] gives the parent-directory file priority: when
    it can be read and is not blank its content is returned and the second
    file is not read; otherwise the second file is read and its content
    returned if usable, [null] if not.  What is returned is never blank. *)
Theorem readAboutMeFromDisk_priority (E : runtime) (s : state) :
  (forall c,
      usable E ParentAboutMe = Some c ->
      readAboutMeFromDisk E s
      = (Returned (Some c), read_files s [ParentAboutMe]))
  /\ (usable E ParentAboutMe = None ->
      readAboutMeFromDisk E s
      = (Returned (usable E CwdAboutMe),
         read_files s [ParentAboutMe; CwdAboutMe]))
  /\ (forall c,
         fst (readAboutMeFromDisk E s) = Returned (Some c) ->
         trim c <> [] /\ exists p, fs_readFile E p = Some c).
Proof.
  unfold readAboutMeFromDisk. rewrite !first_readable_cons.
  split; [| split].
  - intros c ->. reflexivity.
  - intros ->. rewrite read_files_app.
    destruct (usable E CwdAboutMe); reflexivity.
  - intros c.
    destruct (usable E ParentAboutMe) as [c1 |] eqn:H1; simpl.
    + intros H; inversion H; subst c1.
      apply usable_Some in H1 as [Hf Ht]. split; [exact Ht | eauto].
    + destruct (usable E CwdAboutMe) as [c2 |] eqn:H2; simpl;
        [| discriminate].
      intros H; inversion H; subst c2.
      apply usable_Some in H2 as [Hf Ht]. split; [exact Ht | eauto].
Qed.

Lemma readAboutMeFromDisk_priority_witness :
  let E := with_fs Stub.offline
             (fun _ => Some (js "Ten years of backend work")) in
  usable E ParentAboutMe = Some (js "Ten years of backend work")
  /\ readAboutMeFromDisk E Stub.initial
     = (Returned (Some (js "Ten years of backend work")),
        read_files Stub.initial [ParentAboutMe]).
Proof.
  cbv zeta. split; [reflexivity |].
  apply (proj1 (readAboutMeFromDisk_priority
                  (with_fs Stub.offline
                     (fun _ => Some (js "Ten years of backend work")))
                  Stub.initial)).
  reflexivity.
Defined.

Lemma legacy_first_readable_eq E candidates s :
  Legacy.first_readable E candidates s = first_readable E candidates s.
Proof.
  revert s. induction candidates as [| p rest IH]; intros s; [reflexivity |].
  cbn [Legacy.first_readable first_readable]. unfold bind, readFile.
  cbv beta iota.
  destruct (fs_readFile E p) as [content |]; [| apply IH].
  assert (Hc : truthy (Some (VStr content)) && (0 <? length (trim content))%nat
               = truthy (Some (VStr (trim content)))).
  { simpl. destruct content as [| c r]; [reflexivity |].
    destruct (trim (c :: r)); reflexivity. }
  rewrite Hc. destruct (truthy (Some (VStr (trim content)))); [reflexivity |].
  apply IH.
Qed.

(** X2. The two readers of [aboutme.txt] agree: the earlier server's
    [readAboutMeFile] returns a content exactly when [readAboutMeFromDisk]
    returns it, having read the same files, and throws "Missing aboutme.txt.
    Place it at project root." exactly when the other returns [null]. *)
Theorem readAboutMeFile_agrees (E : runtime) (s : state) :
  Legacy.readAboutMeFile E s
  = match readAboutMeFromDisk E s with
    | (Returned (Some content), s') => (Returned content, s')
    | (Returned None, s') => (Thrown missing_aboutme, s')
    | (Thrown e, s') => (Thrown e, s')
    end.
Proof.
  unfold Legacy.readAboutMeFile, readAboutMeFromDisk, bind.
  rewrite legacy_first_readable_eq.
  destruct (first_readable E _ s) as [[[content |] | e] s']; reflexivity.
Qed.

(** ** The paths of the two handlers *)

Lemma handler_generate_eq E about target s :
  handler (respond E (generateWithOpenAI E about target)) s
  = handler (respond E (refineWithOpenAI E buildSystemPrompt
                          (buildUserPrompt E about target))) s.
Proof.
  unfold handler, respond, bind. rewrite generateWithOpenAI_eq. reflexivity.
Qed.

Lemma api_generate_from_disk E req target s :
  nonblank_string (targetText req) = Some target ->
  nonblank_string (aboutMe req) = None ->
  exists found rs,
    api_generate E req s
    = match found with
      | Some (c :: content) =>
          handler (generate_validated E (c :: content) target)
            (read_files s rs)
      | _ => (rejection 400 "Missing aboutMe content", read_files s rs)
      end.
Proof.
  intros Ht Ha.
  destruct (first_readable_state E [ParentAboutMe; CwdAboutMe] s)
    as (found & rs & Hread).
  exists found, rs.
  unfold api_generate. rewrite Ht, Ha.
  unfold handler at 1, bind, readAboutMeFromDisk. rewrite Hread.
  destruct found as [[| c content] |]; reflexivity.
Qed.

(** Every response of [/api/generate] is one of four. *)
Lemma api_generate_paths E req s :
  api_generate E req s = (rejection 400 "Missing targetText", s)
  \/ (exists ps,
         api_generate E req s
         = (rejection 400 "Missing aboutMe content", read_files s ps))
  \/ (exists ps,
         api_key_configured E = false
         /\ api_generate E req s
            = ({| status := 500; body := error_body key_missing_message |},
               read_files s ps))
  \/ (exists ps system user,
         api_key_configured E = true
         /\ api_generate E req s
            = handler (respond E (refineWithOpenAI E system user))
                (read_files s ps)).
Proof.
  assert (Hv : forall about target s1,
             (api_key_configured E = false
              /\ handler (generate_validated E about target) s1
                 = ({| status := 500; body := error_body key_missing_message |},
                    s1))
             \/ (api_key_configured E = true
                 /\ handler (generate_validated E about target) s1
                    = handler (respond E (refineWithOpenAI E buildSystemPrompt
                                            (buildUserPrompt E about target)))
                        s1)).
  { intros about target s1. unfold generate_validated.
    destruct (api_key_configured E); simpl negb; cbv iota.
    - right. split; [reflexivity |]. apply handler_generate_eq.
    - left. split; reflexivity. }
  destruct (nonblank_string (targetText req)) as [target |] eqn:Ht;
    [| left; unfold api_generate; rewrite Ht; reflexivity].
  right.
  destruct (nonblank_string (aboutMe req)) as [about |] eqn:Ha.
  - right. unfold api_generate. rewrite Ht, Ha.
    destruct (Hv about target s) as [[Hk H] | [Hk H]].
    + left. exists []. rewrite read_files_nil. split; assumption.
    + right. exists [], buildSystemPrompt, (buildUserPrompt E about target).
      rewrite read_files_nil. split; assumption.
  - destruct (api_generate_from_disk E req target s) as (found & rs & H);
      [assumption | assumption |].
    destruct found as [[| c content] |];
      try (left; exists rs; exact H).
    right. rewrite H.
    destruct (Hv (c :: content) target (read_files s rs))
      as [[Hk Hh] | [Hk Hh]].
    + left. exists rs. split; [exact Hk | exact Hh].
    + right. exists rs, buildSystemPrompt,
        (buildUserPrompt E (c :: content) target).
      split; [exact Hk | exact Hh].
Qed.

(** Every response of [/api/refine] is one of four. *)
Lemma api_refine_paths E req s :
  api_refine E req s = (rejection 400 "Missing resume object", s)
  \/ api_refine E req s = (rejection 400 "Missing feedback", s)
  \/ (api_key_configured E = false
      /\ api_refine E req s
         = ({| status := 500; body := error_body key_missing_message |}, s))
  \/ (exists system user,
         api_key_configured E = true
         /\ api_refine E req s
            = handler (respond E (refineWithOpenAI E system user)) s).
Proof.
  unfold api_refine, handler, bind.
  destruct (resume req) as [l |]; unfold deref, ret; cbv beta;
    [| left; reflexivity].
  destruct (store s !! l) as [prior |]; [| left; reflexivity].
  destruct (negb (truthy (Some prior))
            || negb (bool_decide (typeof (Some prior) = TObject)));
    [left; reflexivity |].
  right.
  destruct (nonempty_string (feedback req)) as [fb |]; [| left; reflexivity].
  right.
  destruct (api_key_configured E); simpl negb; cbv iota.
  - right. exists refineSystemPrompt, (refineUserPrompt E prior fb).
    split; reflexivity.
  - left. split; reflexivity.
Qed.

(** What the generation stage of either handler leaves behind. *)
Lemma generation_stage E system user s :
  let r := handler (respond E (refineWithOpenAI E system user)) s in
  (status (fst r) = 200 \/ status (fst r) = 500)
  /\ store s ⊆ store (snd r)
  /\ reads (snd r) = reads s
  /\ calls (snd r)
     = calls s
       ++ (if test_gpt5 (OPENAI_MODEL E)
           then ResponsesCreate (schema_request E system user)
                :: (if tier1_succeeds E (calls s)
                         (schema_request E system user)
                    then []
                    else [ChatCompletionsCreate
                            (json_mode_request E system user)])
           else [ChatCompletionsCreate (json_mode_request E system user)]).
Proof.
  cbv zeta.
  destruct (handler_respond_frame E (refineWithOpenAI E system user) s)
    as (Hsub & Hreads & _); [intros o1 s1; apply refineWithOpenAI_fresh |].
  split; [| split; [exact Hsub | split; [exact Hreads |]]].
  - unfold handler.
    destruct (respond E (refineWithOpenAI E system user) s) as [o s'] eqn:H.
    apply respond_cases in H;
      [| intros o1 s1; apply refineWithOpenAI_fresh].
    destruct H as [_ [(e & -> & _) | (b & v & -> & _)]]; simpl; tauto.
  - rewrite handler_state, respond_calls. apply two_tier_calls.
Qed.

Lemma generation_stage_contract E system user s ps :
  within_contract s
    (handler (respond E (refineWithOpenAI E system user)) (read_files s ps)).
Proof.
  pose proof (generation_stage E system user (read_files s ps)) as H.
  cbv zeta in H. destruct H as (Hst & Hsub & _ & Hcalls).
  unfold within_contract. split; [tauto |]. split; [exact Hsub |]. split.
  - intros H400. rewrite H400 in Hst. destruct Hst; discriminate.
  - intros _. rewrite (new_calls_app s _ _ Hcalls).
    destruct (test_gpt5 (OPENAI_MODEL E)); discriminate.
Qed.

Lemma generation_stage_log E system user s ps :
  extends_log E s
    (handler (respond E (refineWithOpenAI E system user)) (read_files s ps)).
Proof.
  pose proof (generation_stage E system user (read_files s ps)) as H.
  cbv zeta in H. destruct H as (_ & _ & _ & Hcalls). simpl calls in Hcalls.
  eexists. split; [exact Hcalls |].
  destruct (test_gpt5 (OPENAI_MODEL E));
    [destruct (tier1_succeeds E _ _) |];
    (split; [right; exists system, user; tauto | simpl; lia]).
Qed.

Lemma no_call_contract s st b ps :
  st = 400 \/ st = 500 ->
  within_contract s ({| status := st; body := b |}, read_files s ps).
Proof.
  intros Hst. unfold within_contract; simpl.
  split; [tauto |]. split; [reflexivity |]. split; [tauto |].
  intros H200. destruct Hst; congruence.
Qed.

Lemma no_call_log E s r ps : extends_log E s (r, read_files s ps).
Proof.
  exists []. simpl. rewrite app_nil_r.
  split; [reflexivity |]. split; [left; reflexivity | lia].
Qed.

(** X3. A generate request with a usable [targetText] but no usable
    [aboutMe], on a machine where neither [aboutme.txt] can be read or both
    are blank, is answered 400 "Missing aboutMe content" once both files have
    been tried; no SDK call is made, whether or not the API key is set. *)
Theorem generate_without_about_me (E : runtime) (req : generate_body)
    (target : jsstring) (s : state) :
  targetText req = Some (VStr target) ->
  trim target <> [] ->
  absent_or_blank (aboutMe req) ->
  usable E ParentAboutMe = None ->
  usable E CwdAboutMe = None ->
  api_generate E req s
  = (rejection 400 "Missing aboutMe content",
     read_files s [ParentAboutMe; CwdAboutMe]).
Proof.
  intros Ht Htrim Ha H1 H2.
  assert (Htarget : nonblank_string (targetText req) = Some target)
    by (apply nonblank_string_Some; split; assumption).
  apply nonblank_string_None in Ha.
  unfold api_generate. rewrite Htarget, Ha.
  unfold handler, bind, readAboutMeFromDisk.
  rewrite !first_readable_cons, H1, H2, first_readable_nil, read_files_app.
  reflexivity.
Qed.

Lemma generate_without_about_me_witness :
  let E := with_fs Stub.fallback_runtime
             (fun p => match p with
                       | ParentAboutMe => None
                       | CwdAboutMe => Some (js "   ")
                       end) in
  absent_or_blank (aboutMe Stub.request_without_about)
  /\ usable E CwdAboutMe = None
  /\ api_generate E Stub.request_without_about Stub.initial
     = (rejection 400 "Missing aboutMe content",
        read_files Stub.initial [ParentAboutMe; CwdAboutMe]).
Proof.
  cbv zeta. split; [exact I |]. split; [reflexivity |].
  apply (generate_without_about_me _ Stub.request_without_about Stub.target
           Stub.initial); try reflexivity.
  intros H; vm_compute in H; discriminate H.
Defined.

(** X4. Without an API key a request that passes validation is answered 500
    "OPENAI_API_KEY is not configured in server/.env" and the state is left
    as it was: no SDK call is made, by [/api/generate] or by [/api/refine]. *)
Theorem no_key_no_call (E : runtime) :
  api_key_configured E = false ->
  (forall req about target s,
      valid_generate req about target ->
      api_generate E req s
      = ({| status := 500; body := error_body key_missing_message |}, s))
  /\ (forall req prior fb s,
         valid_refine req s prior fb ->
         api_refine E req s
         = ({| status := 500; body := error_body key_missing_message |}, s)).
Proof.
  intros Hk. split.
  - intros req about target s Hv.
    rewrite (api_generate_valid E req about target s Hv).
    unfold generate_validated. rewrite Hk. reflexivity.
  - intros req prior fb s Hv.
    rewrite (api_refine_valid E req prior fb s Hv), Hk. reflexivity.
Qed.

Lemma no_key_no_call_witness :
  let E := without_key Stub.fallback_runtime in
  api_key_configured E = false
  /\ api_generate E Stub.request Stub.initial
     = ({| status := 500; body := error_body key_missing_message |},
        Stub.initial).
Proof.
  cbv zeta. split; [reflexivity |].
  apply (proj1 (no_key_no_call (without_key Stub.fallback_runtime) eq_refl)
           Stub.request Stub.about Stub.target Stub.initial
           stub_request_valid).
Defined.

(** X5. Whatever the request, the runtime and the state, [/api/generate] and
    [/api/refine] answer with status 200, 400 or 500 and keep every object of
    the store; a 400 has made no SDK call and created no object, and a 200
    has made at least one SDK call. *)
Theorem handlers_within_contract (E : runtime) :
  (forall req s, within_contract s (api_generate E req s))
  /\ (forall req s, within_contract s (api_refine E req s)).
Proof.
  split; intros req s.
  - destruct (api_generate_paths E req s)
      as [-> | [(ps & ->) | [(ps & _ & ->) | (ps & sy & us & _ & ->)]]].
    + rewrite <- (read_files_nil s) at 2. apply no_call_contract. tauto.
    + apply no_call_contract. tauto.
    + apply no_call_contract. tauto.
    + apply generation_stage_contract.
  - destruct (api_refine_paths E req s)
      as [-> | [-> | [(_ & ->) | (sy & us & _ & ->)]]].
    + rewrite <- (read_files_nil s) at 2. apply no_call_contract. tauto.
    + rewrite <- (read_files_nil s) at 2. apply no_call_contract. tauto.
    + rewrite <- (read_files_nil s) at 2. apply no_call_contract. tauto.
    + rewrite <- (read_files_nil s) at 2. apply generation_stage_contract.
Qed.

Lemma handlers_within_contract_witness :
  let r := api_generate Stub.fallback_runtime Stub.request Stub.initial in
  status (fst r) = 200
  /\ within_contract Stub.initial r
  /\ new_calls Stub.initial (snd r) <> [].
Proof.
  cbv zeta.
  pose proof (proj1 (handlers_within_contract Stub.fallback_runtime)
                Stub.request Stub.initial) as H.
  split; [reflexivity |]. split; [exact H |].
  destruct H as (_ & _ & _ & H200). apply H200. reflexivity.
Defined.

(** X6. Whatever the request, a handler only appends to the log of SDK calls,
    and what it appends is nothing, the JSON-mode call, the
    schema-constrained call, or the schema-constrained call followed by the
    JSON-mode call with the same prompts: never more than two calls, never
    the same call twice, never the JSON-mode call first. *)
Theorem handlers_extend_log (E : runtime) :
  (forall req s, extends_log E s (api_generate E req s))
  /\ (forall req s, extends_log E s (api_refine E req s)).
Proof.
  split; intros req s.
  - destruct (api_generate_paths E req s)
      as [-> | [(ps & ->) | [(ps & _ & ->) | (ps & sy & us & _ & ->)]]].
    + rewrite <- (read_files_nil s) at 2. apply no_call_log.
    + apply no_call_log.
    + apply no_call_log.
    + apply generation_stage_log.
  - destruct (api_refine_paths E req s)
      as [-> | [-> | [(_ & ->) | (sy & us & _ & ->)]]].
    + rewrite <- (read_files_nil s) at 2. apply no_call_log.
    + rewrite <- (read_files_nil s) at 2. apply no_call_log.
    + rewrite <- (read_files_nil s) at 2. apply no_call_log.
    + rewrite <- (read_files_nil s) at 2. apply generation_stage_log.
Qed.

(** ** One tier or two *)

(** X7. When the model selects the schema-constrained call and its payload
    parses, [generateWithOpenAI] returns that parse as a new object after
    this one SDK call: the JSON-mode call is not made, and whatever provider
    stands behind it makes no difference. *)
Theorem first_tier_suffices (E : runtime) (about target : jsstring)
    (s : state) :
  let r1 := schema_request E buildSystemPrompt
              (buildUserPrompt E about target) in
  test_gpt5 (OPENAI_MODEL E) = true ->
  tier1_succeeds E (calls s) r1 = true ->
  (exists envelope v,
      responses_create E (calls s) r1 = Returned envelope
      /\ JSON_parse E (responses_text envelope) = inl v
      /\ generateWithOpenAI E about target s
         = (Returned (fresh (dom (store s))),
            set_store (called s (ResponsesCreate r1))
              (<[fresh (dom (store s)) := v]> (store s))))
  /\ new_calls s (snd (generateWithOpenAI E about target s))
     = [ResponsesCreate r1]
  /\ (forall f,
         generateWithOpenAI (with_chat E f) about target s
         = generateWithOpenAI E about target s).
Proof.
  cbv zeta. intros Hm Hok.
  assert (Hgen : forall E',
             test_gpt5 (OPENAI_MODEL E') = true ->
             forall envelope v,
               responses_create E' (calls s)
                 (schema_request E' buildSystemPrompt
                    (buildUserPrompt E' about target)) = Returned envelope ->
               JSON_parse E' (responses_text envelope) = inl v ->
               generateWithOpenAI E' about target s
               = (Returned (fresh (dom (store s))),
                  set_store
                    (called s (ResponsesCreate
                                 (schema_request E' buildSystemPrompt
                                    (buildUserPrompt E' about target))))
                    (<[fresh (dom (store s)) := v]> (store s)))).
  { intros E' Hm' envelope v Hr Hp.
    rewrite generateWithOpenAI_eq, refineWithOpenAI_eq, Hm', schema_call_eq.
    cbv zeta. rewrite Hr, parse_eq, Hp. reflexivity. }
  unfold tier1_succeeds in Hok.
  destruct (responses_create E (calls s) _) as [envelope | e] eqn:Hr;
    [| discriminate].
  destruct (JSON_parse E (responses_text envelope)) as [v | msg] eqn:Hp;
    [| discriminate].
  pose proof (Hgen E Hm envelope v Hr Hp) as HE.
  split; [exists envelope, v; repeat split; [exact Hp | exact HE] |].
  split.
  - apply new_calls_app. rewrite HE. reflexivity.
  - intros f. rewrite HE. apply (Hgen (with_chat E f) Hm envelope v Hr Hp).
Qed.

Lemma first_tier_suffices_witness :
  let E := Stub.runtime_of None (Stub.output (js "{}"))
             (Thrown Stub.unsupported) in
  let r1 := schema_request E buildSystemPrompt
              (buildUserPrompt E Stub.about Stub.target) in
  test_gpt5 (OPENAI_MODEL E) = true
  /\ tier1_succeeds E [] r1 = true
  /\ new_calls Stub.initial
       (snd (generateWithOpenAI E Stub.about Stub.target Stub.initial))
     = [ResponsesCreate r1].
Proof.
  cbv zeta. split; [reflexivity |]. split; [reflexivity |].
  apply (first_tier_suffices
           (Stub.runtime_of None (Stub.output (js "{}"))
              (Thrown Stub.unsupported))
           Stub.about Stub.target Stub.initial); reflexivity.
Defined.

(** X8. The two handlers share one generation: [generateWithOpenAI], whose
    [catch] only logs before control falls through to the JSON-mode call,
    does on the generation prompts exactly what the statements of
    [/api/refine], which make that call inside the [catch], do on theirs. *)
Theorem two_handlers_one_generation (E : runtime) (about target : jsstring)
    (s : state) :
  generateWithOpenAI E about target s
  = refineWithOpenAI E buildSystemPrompt (buildUserPrompt E about target) s.
Proof.
  unfold generateWithOpenAI, refineWithOpenAI, bind, try_catch, ret.
  cbv beta zeta.
  destruct (test_gpt5 (OPENAI_MODEL E)); [| reflexivity].
  destruct (schema_call E buildSystemPrompt (buildUserPrompt E about target) s)
    as [[parsed | e] s1]; reflexivity.
Qed.

(** ** Normalization, again *)

Lemma assoc_set_same k v ps :
  assoc_get k ps = Some v -> assoc_set k v ps = ps.
Proof.
  induction ps as [| [k' v'] ps IH]; simpl; [discriminate |].
  destruct (bool_decide (k' = k)) eqn:Hk.
  - apply bool_decide_eq_true_1 in Hk. subst k'.
    intros H; inversion H; reflexivity.
  - intros H. rewrite (IH H). reflexivity.
Qed.

Lemma with_prop_same v k x : own v k = Some x -> with_prop v k x = v.
Proof.
  destruct v; simpl; try reflexivity; intros H;
    rewrite (assoc_set_same _ _ _ H); reflexivity.
Qed.

Lemma normalized_idempotent v :
  is_object (Some v) = true -> normalized (normalized v) = normalized v.
Proof.
  intros Ho.
  assert (Hon : is_object (Some (normalized v)) = true)
    by (unfold normalized; cbv zeta; rewrite !is_object_with_prop; exact Ho).
  pose proof (own_normalized_experience v Ho) as He.
  pose proof (own_normalized_skills v Ho) as Hs.
  set (w := normalized v) in *.
  unfold normalized at 1. cbv zeta.
  rewrite He, or_default_truthy_value by (apply truthy_or_default; reflexivity).
  rewrite (with_prop_same w _ _ He).
  rewrite Hs, or_default_truthy_value by (apply truthy_or_default; reflexivity).
  apply with_prop_same, Hs.
Qed.

(** X9. Normalization is idempotent: running the two default statements a
    second time on the same object changes nothing, and where the first run
    throws the second is not reached. *)
Theorem normalize_idempotent (E : runtime) (l : loc) (s : state) :
  (normalize E l ;;; normalize E l) s = normalize E l s.
Proof.
  unfold bind at 1.
  destruct (normalize E l s) as [[[] | e] s1] eqn:Hn; [| reflexivity].
  apply normalize_cases in Hn.
  destruct Hn as [(e & He & _) | (v & Hl & Ho & _ & ->)]; [discriminate |].
  assert (Hl1 : store (set_store s (<[l := normalized v]> (store s))) !! l
                = Some (normalized v)) by apply lookup_insert_eq.
  assert (Ho1 : is_object (Some (normalized v)) = true)
    by (unfold normalized; cbv zeta; rewrite !is_object_with_prop; exact Ho).
  rewrite (normalize_object E l _ _ Hl1 Ho1).
  rewrite (normalized_idempotent v Ho).
  unfold set_store; simpl. rewrite insert_insert_eq. reflexivity.
Qed.

(** X10. An answer without text is an empty resume, not an error: when the
    call that decides a valid generate request is fulfilled with no text, the
    handler parses [{}] and answers 200 with [experience: []] and
    [skills: { core: [] }].  The deciding call is the schema-constrained call
    when the model selects it and it is fulfilled with no [output_text] and
    no first output item; it is the JSON-mode call, fulfilled with a null,
    missing or empty [content], when the model does not select the
    schema-constrained call and also when that call was made and failed. *)
Theorem empty_answer_is_an_empty_resume (E : runtime) (req : generate_body)
    (about target : jsstring) (s : state) :
  let system := buildSystemPrompt in
  let user := buildUserPrompt E about target in
  valid_generate req about target ->
  api_key_configured E = true ->
  JSON_parse E (js "{}") = inl (VObj []) ->
  (test_gpt5 (OPENAI_MODEL E) = true ->
   responses_create E (calls s) (schema_request E system user)
   = Returned {| output_text := None; output_0_content_0_text := None |} ->
   fst (api_generate E req s)
   = {| status := 200; body := resume_body empty_resume |})
  /\ (forall c,
         json_mode_decides E system user s (Returned c) ->
         string_or (choices_0_message_content c) [] = [] ->
         fst (api_generate E req s)
         = {| status := 200; body := resume_body empty_resume |}).
Proof.
  cbv zeta. intros Hv Hk Hp.
  rewrite (api_generate_valid E req about target s Hv).
  unfold generate_validated. rewrite Hk. simpl negb. cbv iota.
  change (handler _ s)
    with (handler (respond E (generateWithOpenAI E about target)) s).
  split.
  - intros Hm Hr.
    assert (Hg : generateWithOpenAI E about target s
                 = (Returned (fresh (dom (store s))),
                    set_store
                      (called s (ResponsesCreate
                                   (schema_request E buildSystemPrompt
                                      (buildUserPrompt E about target))))
                      (<[fresh (dom (store s)) := VObj []]> (store s)))).
    { rewrite generateWithOpenAI_eq, refineWithOpenAI_eq, Hm, schema_call_eq.
      cbv zeta. rewrite Hr, parse_eq.
      change (responses_text _) with (js "{}").
      rewrite Hp. reflexivity. }
    rewrite (handler_respond_returned E _ s _ _ (VObj []) Hg);
      [reflexivity | apply lookup_insert_eq | reflexivity].
  - intros c Hc Hempty.
    assert (Htext : completion_text c = js "{}").
    { unfold completion_text.
      destruct (choices_0_message_content c) as [[| x r] |];
        [reflexivity | discriminate | reflexivity]. }
    destruct (json_mode_decides_eq E _ _ s _ Hc) as (s1 & _ & Hs1 & _ & Hg).
    rewrite <- generateWithOpenAI_eq, parse_eq, Htext, Hp in Hg.
    rewrite (handler_respond_returned E _ s _ _ (VObj []) Hg);
      [reflexivity | apply lookup_insert_eq | reflexivity].
Qed.

Lemma empty_answer_is_an_empty_resume_witness :
  let silent := Returned {| output_text := None;
                            output_0_content_0_text := None |} in
  let E1 := Stub.runtime_of None silent (Thrown Stub.unsupported) in
  let E2 := Stub.runtime_of None (Thrown Stub.unsupported)
              (Returned {| choices_0_message_content := None |}) in
  valid_generate Stub.request Stub.about Stub.target
  /\ (test_gpt5 (OPENAI_MODEL E1) = true
      /\ fst (api_generate E1 Stub.request Stub.initial)
         = {| status := 200; body := resume_body empty_resume |})
  /\ (json_mode_decides E2 buildSystemPrompt
        (buildUserPrompt E2 Stub.about Stub.target) Stub.initial
        (Returned {| choices_0_message_content := None |})
      /\ length (calls (snd (api_generate E2 Stub.request Stub.initial)))
         = 2%nat
      /\ fst (api_generate E2 Stub.request Stub.initial)
         = {| status := 200; body := resume_body empty_resume |}).
Proof.
  cbv zeta. split; [exact stub_request_valid |].
  assert (Hd : json_mode_decides
                 (Stub.runtime_of None (Thrown Stub.unsupported)
                    (Returned {| choices_0_message_content := None |}))
                 buildSystemPrompt
                 (buildUserPrompt
                    (Stub.runtime_of None (Thrown Stub.unsupported)
                       (Returned {| choices_0_message_content := None |}))
                    Stub.about Stub.target)
                 Stub.initial
                 (Returned {| choices_0_message_content := None |})).
  { right. split; [reflexivity |]. split; reflexivity. }
  split; [split; [reflexivity |] | split; [exact Hd | split; [reflexivity |]]].
  - apply (proj1 (empty_answer_is_an_empty_resume
                    (Stub.runtime_of None
                       (Returned {| output_text := None;
                                    output_0_content_0_text := None |})
                       (Thrown Stub.unsupported))
                    Stub.request Stub.about Stub.target Stub.initial
                    stub_request_valid eq_refl eq_refl));
      reflexivity.
  - apply (proj2 (empty_answer_is_an_empty_resume
                    (Stub.runtime_of None (Thrown Stub.unsupported)
                       (Returned {| choices_0_message_content := None |}))
                    Stub.request Stub.about Stub.target Stub.initial
                    stub_request_valid eq_refl eq_refl)
             _ Hd).
    reflexivity.
Defined.

(** ** The earlier handler *)

Lemma legacy_api_generate_read E target t s about s1 :
  nonblank_string target = Some t ->
  Legacy.readAboutMeFile E s = (Returned about, s1) ->
  api_key_configured E = true ->
  let r := Legacy.chat_request_of Legacy.buildSystemPrompt
             (buildUserPrompt E about t) in
  Legacy.api_generate E target s
  = match chat_completions_create E (calls s1) r with
    | Thrown e =>
        (rejection 500 "Internal server error",
         called s1 (ChatCompletionsCreate r))
    | Returned c =>
        match JSON_parse E (completion_text c) with
        | inr msg =>
            ({| status := 502;
                body := Legacy.invalid_json_body (completion_text c) |},
             called s1 (ChatCompletionsCreate r))
        | inl v =>
            match (normalize E (fresh (dom (store s1))) ;;;
                   send_resume (fresh (dom (store s1))))
                    (set_store (called s1 (ChatCompletionsCreate r))
                       (<[fresh (dom (store s1)) := v]> (store s1))) with
            | (Returned resp, s') => (resp, s')
            | (Thrown e, s') => (rejection 500 "Internal server error", s')
            end
        end
    end.
Proof.
  intros Ht Hread Hk. cbv zeta.
  unfold Legacy.api_generate. rewrite Ht.
  unfold bind, try_catch. rewrite Hread. unfold ret. cbv beta iota.
  rewrite Hk. cbv beta iota delta [negb].
  unfold openai_chat_completions_create. cbv beta.
  destruct (chat_completions_create E (calls s1) _) as [c | e];
    [| reflexivity].
  rewrite parse_eq. fold (completion_text c).
  destruct (JSON_parse E (completion_text c)) as [v | msg]; reflexivity.
Qed.

(** X11. The earlier [/api/generate] makes one JSON-mode call, to
    [gpt-4o-mini] whatever [OPENAI_MODEL] says; when the content it gets does
    not parse it answers 502 "Model returned invalid JSON" with that content
    as [raw], and creates no object. *)
Theorem legacy_invalid_json_carries_raw (E : runtime) (target : jsval)
    (t about : jsstring) (s s1 : state) (c : completion_envelope)
    (msg : jsstring) :
  let r := Legacy.chat_request_of Legacy.buildSystemPrompt
             (buildUserPrompt E about t) in
  target = Some (VStr t) ->
  trim t <> [] ->
  Legacy.readAboutMeFile E s = (Returned about, s1) ->
  api_key_configured E = true ->
  chat_completions_create E (calls s1) r = Returned c ->
  JSON_parse E (completion_text c) = inr msg ->
  Legacy.api_generate E target s
  = ({| status := 502;
        body := VObj [(js "error", VStr (js "Model returned invalid JSON"));
                      (js "raw", VStr (completion_text c))] |},
     called s1 (ChatCompletionsCreate r))
  /\ cq_model r = js "gpt-4o-mini".
Proof.
  cbv zeta. intros -> Htrim Hread Hk Hc Hp.
  assert (Ht : nonblank_string (Some (VStr t)) = Some t)
    by (apply nonblank_string_Some; split; [reflexivity | exact Htrim]).
  pose proof (legacy_api_generate_read E _ t s about s1 Ht Hread Hk) as H.
  cbv zeta in H. rewrite Hc, Hp in H. split; [exact H | reflexivity].
Qed.

Lemma legacy_invalid_json_carries_raw_witness :
  let E := Stub.unparseable_runtime in
  let s1 := read_files Stub.initial [ParentAboutMe; CwdAboutMe] in
  Legacy.readAboutMeFile E Stub.initial
  = (Returned (js "Candidate with a decade of backend work"), s1)
  /\ status (fst (Legacy.api_generate E (Some (VStr Stub.target))
                    Stub.initial)) = 502.
Proof.
  cbv zeta. split; [reflexivity |].
  rewrite (proj1 (legacy_invalid_json_carries_raw Stub.unparseable_runtime
                    (Some (VStr Stub.target)) Stub.target
                    (js "Candidate with a decade of backend work")
                    Stub.initial
                    (read_files Stub.initial [ParentAboutMe; CwdAboutMe])
                    {| choices_0_message_content := Some (js "not json") |}
                    (js "Unexpected token o in JSON at position 1")
                    eq_refl (proj1 (proj2 stub_request_valid)) eq_refl
                    eq_refl eq_refl eq_refl)).
  reflexivity.
Defined.

(** X12. The earlier [/api/generate] does not pass a provider error on: when
    its call is rejected, whatever the error, the answer is 500 with the
    fixed text "Internal server error". *)
Theorem legacy_hides_provider_errors (E : runtime) (target : jsval)
    (t about : jsstring) (s s1 : state) (e : error) :
  let r := Legacy.chat_request_of Legacy.buildSystemPrompt
             (buildUserPrompt E about t) in
  target = Some (VStr t) ->
  trim t <> [] ->
  Legacy.readAboutMeFile E s = (Returned about, s1) ->
  api_key_configured E = true ->
  chat_completions_create E (calls s1) r = Thrown e ->
  Legacy.api_generate E target s
  = (rejection 500 "Internal server error",
     called s1 (ChatCompletionsCreate r)).
Proof.
  cbv zeta. intros -> Htrim Hread Hk Hc.
  assert (Ht : nonblank_string (Some (VStr t)) = Some t)
    by (apply nonblank_string_Some; split; [reflexivity | exact Htrim]).
  pose proof (legacy_api_generate_read E _ t s about s1 Ht Hread Hk) as H.
  cbv zeta in H. rewrite Hc in H. exact H.
Qed.

Lemma legacy_hides_provider_errors_witness :
  let E := Stub.unresponsive in
  Legacy.api_generate E (Some (VStr Stub.target)) Stub.initial
  = (rejection 500 "Internal server error",
     called (read_files Stub.initial [ParentAboutMe; CwdAboutMe])
       (ChatCompletionsCreate
          (Legacy.chat_request_of Legacy.buildSystemPrompt
             (buildUserPrompt E
                (js "Candidate with a decade of backend work")
                Stub.target)))).
Proof.
  cbv zeta.
  apply (legacy_hides_provider_errors Stub.unresponsive
           (Some (VStr Stub.target)) Stub.target
           (js "Candidate with a decade of backend work") Stub.initial
           (read_files Stub.initial [ParentAboutMe; CwdAboutMe])
           Stub.timed_out eq_refl (proj1 (proj2 stub_request_valid))
           eq_refl eq_refl eq_refl).
Defined.

(** X13. The earlier [/api/generate] takes [aboutMe] from the files only:
    with a usable [targetText] and no usable [aboutme.txt] it answers 400
    "Missing aboutme.txt. Place it at project root." once both files have
    been tried, before the API key is looked at and without an SDK call. *)
Theorem legacy_missing_file (E : runtime) (target : jsval) (t : jsstring)
    (s : state) :
  target = Some (VStr t) ->
  trim t <> [] ->
  usable E ParentAboutMe = None ->
  usable E CwdAboutMe = None ->
  Legacy.api_generate E target s
  = (rejection 400 "Missing aboutme.txt. Place it at project root.",
     read_files s [ParentAboutMe; CwdAboutMe]).
Proof.
  intros -> Htrim H1 H2.
  assert (Ht : nonblank_string (Some (VStr t)) = Some t)
    by (apply nonblank_string_Some; split; [reflexivity | exact Htrim]).
  unfold Legacy.api_generate. rewrite Ht.
  unfold bind at 1, try_catch at 1, bind at 1, Legacy.readAboutMeFile,
    bind at 1.
  rewrite legacy_first_readable_eq.
  rewrite !first_readable_cons, H1, H2, first_readable_nil, read_files_app.
  reflexivity.
Qed.

Lemma legacy_missing_file_witness :
  let E := with_fs (without_key Stub.fallback_runtime) (fun _ => None) in
  usable E ParentAboutMe = None
  /\ usable E CwdAboutMe = None
  /\ Legacy.api_generate E (Some (VStr Stub.target)) Stub.initial
     = (rejection 400 "Missing aboutme.txt. Place it at project root.",
        read_files Stub.initial [ParentAboutMe; CwdAboutMe]).
Proof.
  cbv zeta. split; [reflexivity |]. split; [reflexivity |].
  apply (legacy_missing_file
           (with_fs (without_key Stub.fallback_runtime) (fun _ => None))
           (Some (VStr Stub.target)) Stub.target
           Stub.initial eq_refl (proj1 (proj2 stub_request_valid))
           eq_refl eq_refl).
Defined.

(** ** The prompt *)

Lemma buildUserPrompt_shape E :
  exists suffix,
    forall a t,
      buildUserPrompt E a t
      = (js "ABOUT_ME:" ++ LF) ++ a
        ++ (LF ++ LF ++ js "TARGET_COMPANY_AND_JOB:" ++ LF) ++ t ++ suffix.
Proof. eexists. intros a t. reflexivity. Qed.

(** X14. The user prompt determines each input given the other: two job
    descriptions with the same [aboutMe] give different prompts, and so do
    two [aboutMe] texts with the same job description.  It does not determine
    the pair: text moved across the [TARGET_COMPANY_AND_JOB:] heading gives
    the same prompt. *)
Theorem buildUserPrompt_injective_in_each (E : runtime) :
  (forall about t t',
      buildUserPrompt E about t = buildUserPrompt E about t' -> t = t')
  /\ (forall a a' target,
         buildUserPrompt E a target = buildUserPrompt E a' target -> a = a')
  /\ (exists a t a' t',
         a <> a' /\ buildUserPrompt E a t = buildUserPrompt E a' t').
Proof.
  destruct (buildUserPrompt_shape E) as [suffix Hshape].
  split; [| split].
  - intros about t t'. rewrite !Hshape. intros H.
    apply app_inv_head in H. apply app_inv_head in H.
    apply app_inv_head in H. apply app_inv_tail in H. exact H.
  - intros a a' target. rewrite !Hshape. intros H.
    apply app_inv_head in H. apply app_inv_tail in H. exact H.
  - set (heading := LF ++ LF ++ js "TARGET_COMPANY_AND_JOB:" ++ LF).
    exists (js "p" ++ heading ++ js "q"), (js "r"),
           (js "p"), (js "q" ++ heading ++ js "r").
    split; [discriminate |].
    rewrite !Hshape. fold heading. rewrite <- !app_assoc. reflexivity.
Qed.

Lemma buildUserPrompt_injective_in_each_witness :
  let E := Stub.fallback_runtime in
  buildUserPrompt E Stub.about Stub.target
  = buildUserPrompt E Stub.about Stub.target
  /\ Stub.target = Stub.target.
Proof.
  cbv zeta. split; [reflexivity |].
  apply (proj1 (buildUserPrompt_injective_in_each Stub.fallback_runtime)
           Stub.about Stub.target Stub.target).
  reflexivity.
Defined.

(** * [/api/export/docx] *)

Lemma nonempty_string_None v :
  nonempty_string v = None <-> absent_or_empty v.
Proof.
  destruct (nonempty_string v) as [s |] eqn:H.
  - apply nonempty_string_Some in H as [-> Hs].
    destruct s; [contradiction |]. simpl. split; [discriminate | tauto].
  - split; [intros _ | reflexivity].
    destruct v as [[| | | [| c r] | |] |]; simpl; try exact I.
    assert (Hs : nonempty_string (Some (VStr (c :: r))) = Some (c :: r))
      by (apply nonempty_string_Some; split; [reflexivity | discriminate]).
    congruence.
Qed.

Lemma strip_quotes_clean s : Forall (fun c => c <> 34%N) (strip_quotes s).
Proof.
  unfold strip_quotes. apply List.Forall_forall. intros c Hc.
  apply List.filter_In in Hc as [_ Hc].
  apply negb_true_iff, N.eqb_neq in Hc. exact Hc.
Qed.

Lemma count_quotes_clean name :
  Forall (fun c => c <> 34%N) name -> count_occ N.eq_dec name 34%N = 0%nat.
Proof.
  intros H. apply count_occ_not_In. intros Hin.
  rewrite List.Forall_forall in H. apply (H _ Hin). reflexivity.
Qed.

Lemma export_filename_clean filename name :
  export_filename filename = Some name ->
  Forall (fun c => c <> 34%N) name
  /\ (truthy filename = false -> name = js "resume")
  /\ (forall s, filename = Some (VStr s) -> s <> [] -> name = strip_quotes s).
Proof.
  unfold export_filename, js_or.
  destruct (truthy filename) eqn:Ht.
  - destruct filename as [[| | | s | |] |]; try discriminate.
    intros H; inversion H; subst name.
    split; [apply strip_quotes_clean |]. split; [discriminate |].
    intros s' H'; inversion H'; reflexivity.
  - change (Some (strip_quotes (js "resume")) = Some name ->
            Forall (fun c => c <> 34%N) name
            /\ (false = false -> name = js "resume")
            /\ (forall s, filename = Some (VStr s) -> s <> [] ->
                          name = strip_quotes s)).
    intros H.
    assert (name = strip_quotes (js "resume")) as -> by congruence.
    split; [apply strip_quotes_clean |]. split; [reflexivity |].
    intros s -> Hs. destruct s; [contradiction | discriminate].
Qed.

(** X15. An export request whose [html] is absent, not a string or empty is
    answered 400 "Missing html" with no header set, whatever the converter:
    it is not called. *)
Theorem export_requires_html (X : docx_runtime) (html filename : jsval) :
  absent_or_empty html ->
  api_export_docx X html filename
  = {| x_status := 400; x_headers := [];
       x_body := inl (error_body (js "Missing html")) |}.
Proof.
  intros H. apply nonempty_string_None in H.
  unfold api_export_docx. rewrite H. reflexivity.
Qed.

Lemma export_requires_html_witness :
  absent_or_empty (Some (VStr []))
  /\ api_export_docx echo_converter (Some (VStr [])) (Some (str "cv"))
     = {| x_status := 400; x_headers := [];
          x_body := inl (error_body (js "Missing html")) |}.
Proof.
  split; [exact I |].
  apply (export_requires_html echo_converter (Some (VStr []))
           (Some (str "cv"))).
  exact I.
Defined.

(** X16. Every successful export sends the bytes of the converter: the html
    of the request is a non-empty string, the converter was called on that
    html wrapped in the document template and handed back a buffer, or a blob
    whose [arrayBuffer()] resolved, and the body of the response is those
    bytes.  It is sent with two headers, the DOCX content type and
    [attachment; filename="NAME.docx"], where NAME is the requested file name
    without its double quotes, or [resume] when none was given: the value
    holds exactly the two double quotes that delimit the name. *)
Theorem export_quotes_the_filename (X : docx_runtime) (html filename : jsval) :
  x_status (api_export_docx X html filename) = 200 ->
  exists h name buffer bytes,
    html = Some (VStr h)
    /\ h <> []
    /\ convert X (wrap_html h) = Returned buffer
    /\ bytes_of buffer = Returned bytes
    /\ api_export_docx X html filename
       = {| x_status := 200;
            x_headers := [("Content-Type", content_type_docx);
                          ("Content-Disposition", content_disposition name)];
            x_body := inr bytes |}
    /\ count_occ N.eq_dec (content_disposition name) 34%N = 2%nat
    /\ (truthy filename = false -> name = js "resume")
    /\ (forall s, filename = Some (VStr s) -> s <> [] ->
                  name = strip_quotes s).
Proof.
  unfold api_export_docx.
  destruct (nonempty_string html) as [h |] eqn:Hhtml; [| discriminate].
  apply nonempty_string_Some in Hhtml as [-> Hh].
  cbv zeta. fold (convert X (wrap_html h)).
  destruct (convert X (wrap_html h)) as [buffer | e] eqn:Hconv;
    [| discriminate].
  destruct (export_filename filename) as [name |] eqn:Hname;
    [| discriminate].
  destruct (setHeader_accepts X (content_disposition name));
    [| discriminate].
  apply export_filename_clean in Hname as (Hclean & Hdefault & Hgiven).
  assert (Hcount : count_occ N.eq_dec (content_disposition name) 34%N
                   = 2%nat).
  { unfold content_disposition. rewrite !count_occ_app.
    rewrite (count_quotes_clean name Hclean). reflexivity. }
  destruct buffer as [bytes | [ab | e]]; simpl; try discriminate; intros _.
  - exists h, name, (AsBuffer bytes), bytes.
    split; [reflexivity |]. split; [exact Hh |]. split; [exact Hconv |].
    split; [reflexivity |]. split; [reflexivity |]. split; [exact Hcount |].
    split; assumption.
  - exists h, name, (AsBlob (Returned ab)), ab.
    split; [reflexivity |]. split; [exact Hh |]. split; [exact Hconv |].
    split; [reflexivity |]. split; [reflexivity |]. split; [exact Hcount |].
    split; assumption.
Qed.

Lemma export_quotes_the_filename_witness :
  let html := js "<p>Hi</p>" in
  let r := api_export_docx echo_converter (Some (VStr html))
             (Some (VStr (js "my" ++ dquote ++ js "cv"))) in
  x_status r = 200
  /\ x_headers r
     = [("Content-Type", content_type_docx);
        ("Content-Disposition",
         js "attachment; filename=" ++ dquote ++ js "mycv.docx" ++ dquote)]
  /\ x_body r = inr (wrap_html html).
Proof.
  cbv zeta. split; [reflexivity |].
  destruct (export_quotes_the_filename echo_converter
              (Some (VStr (js "<p>Hi</p>")))
              (Some (VStr (js "my" ++ dquote ++ js "cv"))) eq_refl)
    as (h & name & buffer & bytes & Hhtml & _ & Hconv & Hbytes & Hr & _).
  split; reflexivity.
Defined.

(** X17. A [filename] that is truthy and not a string (a number, [true], an
    object, an array) fails the export: although the html was converted, the
    answer is 500 "Failed to export DOCX". *)
Theorem export_rejects_other_filenames (X : docx_runtime) (html : jsval)
    (h : jsstring) (filename : jsval) (buffer : converted) :
  html = Some (VStr h) ->
  h <> [] ->
  match asBuffer X with
  | Some convert => convert (wrap_html h)
  | None => asBlob X (wrap_html h)
  end = Returned buffer ->
  truthy filename = true ->
  typeof filename <> TString ->
  api_export_docx X html filename
  = export_failed [("Content-Type", content_type_docx)].
Proof.
  intros -> Hh Hc Ht Hty. unfold api_export_docx.
  assert (H : nonempty_string (Some (VStr h)) = Some h)
    by (apply nonempty_string_Some; split; [reflexivity | exact Hh]).
  rewrite H. cbv zeta. rewrite Hc.
  unfold export_filename, js_or. rewrite Ht.
  destruct filename as [[| | | s | |] |]; try reflexivity.
  contradiction Hty. reflexivity.
Qed.

Lemma export_rejects_other_filenames_witness :
  api_export_docx echo_converter (Some (str "<p>Hi</p>"))
    (Some (VNum (S754_finite false 7 0)))
  = export_failed [("Content-Type", content_type_docx)].
Proof.
  apply (export_rejects_other_filenames echo_converter
           (Some (str "<p>Hi</p>")) (js "<p>Hi</p>")
           (Some (VNum (S754_finite false 7 0)))
           (AsBuffer (wrap_html (js "<p>Hi</p>")))
           eq_refl);
    [discriminate | reflexivity | reflexivity | discriminate].
Defined.

(** * Saving and reading back [aboutme.txt] *)

(** X18. Saving then reading back, on a file system where a file that was
    written reads back as written and other files are not affected: after a
    PUT answered 200, GET returns the saved content when the write to the
    parent-directory file went through, or when that file cannot be read;
    when it was rejected and the file can still be read, the content went to
    the working-directory file and GET returns what the parent file holds. *)
Theorem put_then_get (disk : Type)
    (read : disk -> aboutme_path -> option jsstring)
    (write : disk -> aboutme_path -> jsstring -> bool * disk)
    (c : jsstring) (d : disk) :
  (forall d0 p d1, write d0 p c = (true, d1) -> read d1 p = Some c) ->
  (forall d0 p q d1,
      write d0 p c = (true, d1) -> q <> p -> read d1 q = read d0 q) ->
  let r := api_aboutme_put disk write (Some (VStr c)) d in
  let first := write d ParentAboutMe c in
  status (fst r) = 200 ->
  (fst first = true ->
   api_aboutme_get disk read (snd r)
   = {| status := 200; body := content_body c |})
  /\ (fst first = false ->
      api_aboutme_get disk read (snd r)
      = {| status := 200;
           body := content_body
                     match read (snd first) ParentAboutMe with
                     | Some old => old
                     | None => c
                     end |}).
Proof.
  intros Hrw Hframe. cbv zeta.
  unfold api_aboutme_put, writeAboutMeFile, api_aboutme_get.
  destruct (write d ParentAboutMe c) as [[|] d1] eqn:H1; simpl fst; simpl snd.
  - intros _. split; [intros _ | discriminate].
    simpl. rewrite (Hrw _ _ _ H1). reflexivity.
  - destruct (write d1 CwdAboutMe c) as [[|] d2] eqn:H2; simpl;
      [| discriminate].
    intros _. split; [discriminate | intros _].
    rewrite (Hframe _ _ ParentAboutMe _ H2) by discriminate.
    rewrite (Hrw _ _ _ H2).
    destruct (read d1 ParentAboutMe); reflexivity.
Qed.

Lemma sample_disk_reads_back c d0 p d1 :
  sample_write d0 p c = (true, d1) -> sample_read d1 p = Some c.
Proof.
  destruct p; simpl.
  - destruct (parent_writable d0); intros H; inversion H; reflexivity.
  - intros H; inversion H; reflexivity.
Qed.

Lemma sample_disk_frame c d0 p q d1 :
  sample_write d0 p c = (true, d1) -> q <> p ->
  sample_read d1 q = sample_read d0 q.
Proof.
  intros H Hq. destruct p, q; try contradiction; simpl in H.
  - destruct (parent_writable d0); inversion H; reflexivity.
  - inversion H; reflexivity.
Qed.

Lemma put_then_get_witness :
  let d := {| parent_file := Some (js "old text"); cwd_file := None;
              parent_writable := false |} in
  let c := js "new text" in
  let r := api_aboutme_put sample_disk sample_write (Some (VStr c)) d in
  status (fst r) = 200
  /\ fst (sample_write d ParentAboutMe c) = false
  /\ api_aboutme_get sample_disk sample_read (snd r)
     = {| status := 200; body := content_body (js "old text") |}.
Proof.
  cbv zeta. split; [reflexivity |]. split; [reflexivity |].
  apply (proj2 (put_then_get sample_disk sample_read sample_write
                  (js "new text")
                  {| parent_file := Some (js "old text"); cwd_file := None;
                     parent_writable := false |}
                  (sample_disk_reads_back (js "new text"))
                  (sample_disk_frame (js "new text"))
                  eq_refl)).
  reflexivity.
Defined.

(** * The client *)

(** ** [trim] *)

Lemma trim_start_suffix s :
  exists ws,
    s = ws ++ trim_start s /\ Forall (fun c => is_white_space c = true) ws.
Proof.
  induction s as [| c r (ws & Hr & Hws)]; simpl.
  - exists []. split; [reflexivity | constructor].
  - destruct (is_white_space c) eqn:Hc.
    + exists (c :: ws). split; [simpl; congruence | constructor; assumption].
    + exists []. split; [reflexivity | constructor].
Qed.

Lemma trim_start_clean s : starts_clean (trim_start s).
Proof.
  induction s as [| c r IH]; simpl; [exact I |].
  destruct (is_white_space c) eqn:Hc; [exact IH | exact Hc].
Qed.

Lemma trim_start_id s : starts_clean s -> trim_start s = s.
Proof. destruct s as [| c r]; simpl; [reflexivity | intros ->; reflexivity]. Qed.

Lemma trim_end_prefix s :
  exists ws,
    s = trim_end s ++ ws /\ Forall (fun c => is_white_space c = true) ws.
Proof.
  destruct (trim_start_suffix (rev s)) as (ws & Hs & Hws).
  exists (rev ws). split.
  - unfold trim_end. rewrite <- rev_app_distr, <- Hs, rev_involutive.
    reflexivity.
  - apply List.Forall_rev, Hws.
Qed.

Lemma trim_end_starts_clean s : starts_clean s -> starts_clean (trim_end s).
Proof.
  destruct (trim_end_prefix s) as (ws & Hs & Hws).
  destruct (trim_end s) as [| c t]; [intros _; exact I |].
  rewrite Hs. simpl. tauto.
Qed.

Lemma trim_end_id s : starts_clean (rev s) -> trim_end s = s.
Proof.
  intros H. unfold trim_end. rewrite (trim_start_id _ H).
  apply rev_involutive.
Qed.

Lemma trim_idempotent s : trim (trim s) = trim s.
Proof.
  assert (H1 : starts_clean (trim s))
    by (apply trim_end_starts_clean, trim_start_clean).
  assert (H2 : starts_clean (rev (trim s))).
  { unfold trim, trim_end. rewrite rev_involutive. apply trim_start_clean. }
  unfold trim at 1. rewrite (trim_start_id _ H1). apply trim_end_id, H2.
Qed.

(** ** The Generate button and the server *)

Lemma generate_click_requested m typed firebase fetched body :
  generate_click m typed firebase fetched = Requested body ->
  exists about,
    body = {| targetText := Some (VStr (trim typed));
              aboutMe := Some (VStr about) |}
    /\ trim typed <> [] /\ trim about <> [].
Proof.
  unfold generate_click, alerted. cbv zeta.
  destruct (negb (truthy (Some (VStr (trim typed))))) eqn:Ht; [discriminate |].
  match goal with
  | |- (if negb (truthy ?a) then _ else _) = _ -> _ =>
      destruct (negb (truthy a)); [discriminate |];
      destruct a as [[| | | about | |] |]; try discriminate
  end.
  destruct (length (trim about) =? 0)%nat eqn:Hl; [discriminate |].
  intros H; inversion H; subst body. exists about.
  split; [reflexivity |]. split.
  - intros He. rewrite He in Ht. discriminate.
  - intros He. rewrite He in Hl. discriminate.
Qed.

(** X19. The client checks what the server checks: every body the Generate
    button hands to [callGenerate] carries the trimmed job text and an
    [aboutMe], both strings that are not blank, so the server, receiving it
    as sent, answers neither "Missing targetText" nor "Missing aboutMe
    content" and reads no [aboutme.txt]. *)
Theorem client_requests_are_valid (m typed : jsstring)
    (firebase : option jsval) (fetched : option value)
    (body : generate_body) :
  generate_click m typed firebase fetched = Requested body ->
  exists about,
    valid_generate body about (trim typed)
    /\ forall E s,
         api_generate E body s
         = handler (generate_validated E about (trim typed)) s
         /\ reads (snd (api_generate E body s)) = reads s.
Proof.
  intros H.
  destruct (generate_click_requested _ _ _ _ _ H) as (about & -> & Ht & Ha).
  exists about.
  assert (Hv : valid_generate
                 {| targetText := Some (VStr (trim typed));
                    aboutMe := Some (VStr about) |} about (trim typed)).
  { unfold valid_generate; simpl. rewrite trim_idempotent. tauto. }
  split; [exact Hv |]. intros E s.
  rewrite (api_generate_valid E _ about (trim typed) s Hv).
  split; [reflexivity | apply generate_validated_reads].
Qed.

Lemma client_requests_are_valid_witness :
  let body := {| targetText := Some (str "Acme"); aboutMe := Some (str "Me") |} in
  generate_click (js "aboutMe.trim is not a function") (js "  Acme ")
    (Some (Some (VStr []))) (Some (obj [("content", str "Me")]))
  = Requested body
  /\ exists about, valid_generate body about (trim (js "  Acme ")).
Proof.
  cbv zeta. split; [reflexivity |].
  destruct (client_requests_are_valid (js "aboutMe.trim is not a function")
              (js "  Acme ") (Some (Some (VStr [])))
              (Some (obj [("content", str "Me")]))
              {| targetText := Some (str "Acme"); aboutMe := Some (str "Me") |}
              eq_refl) as (about & Hv & _).
  exists about. exact Hv.
Defined.

(** X20. The preview of a history item is the job text itself when it has at
    most 100 code units, and its first 100 code units followed by three dots
    when it is longer: never more than 103 code units. *)
Theorem history_preview_bounded (targetText : jsstring) :
  ((length targetText <= 100)%nat -> history_preview targetText = targetText)
  /\ ((100 < length targetText)%nat ->
      history_preview targetText = take 100 targetText ++ js "..."
      /\ length (history_preview targetText) = 103%nat)
  /\ (length (history_preview targetText) <= 103)%nat.
Proof.
  unfold history_preview.
  destruct (100 <? length targetText)%nat eqn:Hl.
  - apply Nat.ltb_lt in Hl.
    assert (Hlen : length (take 100 targetText ++ js "...") = 103%nat).
    { rewrite length_app, length_take.
      change (length (js "...")) with 3%nat. lia. }
    split; [intros H; lia |]. split; [intros _; split; [reflexivity | exact Hlen] |].
    rewrite Hlen. lia.
  - apply Nat.ltb_ge in Hl. rewrite app_nil_r.
    split; [intros _; apply take_ge; exact Hl |].
    split; [intros H; lia |].
    rewrite length_take. lia.
Qed.

Lemma history_preview_bounded_witness :
  (length (js "Acme Corp: Staff Engineer") <= 100)%nat
  /\ history_preview (js "Acme Corp: Staff Engineer")
     = js "Acme Corp: Staff Engineer".
Proof.
  assert (H : (length (js "Acme Corp: Staff Engineer") <= 100)%nat)
    by (change (length (js "Acme Corp: Staff Engineer")) with 25%nat; lia).
  split; [exact H |].
  apply (proj1 (history_preview_bounded (js "Acme Corp: Staff Engineer"))).
  exact H.
Defined.

(** * What reaches the provider *)

Lemma generation_stage_first_call E system user s :
  first_call_carries E s
    (handler (respond E (refineWithOpenAI E system user)) s) system user.
Proof.
  pose proof (generation_stage E system user s) as H.
  cbv zeta in H. destruct H as (_ & _ & _ & Hcalls).
  unfold first_call_carries. rewrite (new_calls_app s _ _ Hcalls).
  destruct (test_gpt5 (OPENAI_MODEL E)); eexists _, _;
    (split; [reflexivity | repeat split]).
Qed.

(** X21. With the API key set, a request that passes validation reaches the
    provider, and the first call names the configured model and carries the
    prompt built from the inputs as they were sent: the job text and the
    [aboutMe] untrimmed, the prior resume and the feedback, which is only
    required not to be empty, so that a feedback of spaces is sent on. *)
Theorem valid_requests_reach_the_provider (E : runtime) :
  api_key_configured E = true ->
  (forall req about target s,
      valid_generate req about target ->
      first_call_carries E s (api_generate E req s)
        buildSystemPrompt (buildUserPrompt E about target))
  /\ (forall req prior fb s,
         valid_refine req s prior fb ->
         first_call_carries E s (api_refine E req s)
           refineSystemPrompt (refineUserPrompt E prior fb)).
Proof.
  intros Hk. split.
  - intros req about target s Hv.
    rewrite (api_generate_valid E req about target s Hv).
    unfold generate_validated. rewrite Hk. simpl negb. cbv iota.
    change (handler _ s)
      with (handler (respond E (generateWithOpenAI E about target)) s).
    rewrite handler_generate_eq. apply generation_stage_first_call.
  - intros req prior fb s Hv.
    rewrite (api_refine_valid E req prior fb s Hv), Hk. simpl negb. cbv iota.
    apply generation_stage_first_call.
Qed.

Lemma valid_requests_reach_the_provider_witness :
  let E := Stub.fallback_runtime in
  let req := {| resume := Some 1%positive; feedback := Some (str "   ") |} in
  let s := Stub.holding Stub.prior in
  api_key_configured E = true
  /\ valid_refine req s Stub.prior (js "   ")
  /\ first_call_carries E s (api_refine E req s)
       refineSystemPrompt (refineUserPrompt E Stub.prior (js "   ")).
Proof.
  cbv zeta.
  assert (Hv : valid_refine
                 {| resume := Some 1%positive; feedback := Some (str "   ") |}
                 (Stub.holding Stub.prior) Stub.prior (js "   ")).
  { repeat split. intros H; discriminate H. }
  split; [reflexivity |]. split; [exact Hv |].
  apply (proj2 (valid_requests_reach_the_provider Stub.fallback_runtime
                  eq_refl) _ Stub.prior (js "   ") _ Hv).
Defined.
